(** * The WebUntis client of the Refundable backend (package [untis])

    A shallow embedding of the session client: the client registry, the
    session state machine ([Authenticate], [Close]), the reference-data
    resolvers, the three timetable retrievals and the period mapper.

    Go's [int] is rendered as [Z] (the code does no arithmetic on it beyond
    [len(s)-2]), strings are byte strings, slices are lists (Go's nil slice
    and the empty slice are both the empty list), maps are [gmap]s. *)

From Stdlib Require Import ZArith String Ascii List Lia Bool.
From stdpp Require Import base option list gmap strings.

Local Open Scope string_scope.
Local Open Scope Z_scope.

(** Go's [error] values, identified with their message. *)
Definition error := string.

(** ** Package [strconv] and string slicing *)

Module strconv.

Definition digitChar (d : Z) : ascii := ascii_of_nat (48 + Z.to_nat d).

Definition isDigit (c : ascii) : bool :=
  let n := Z.of_nat (nat_of_ascii c) in (48 <=? n) && (n <=? 57).

Definition digitVal (c : ascii) : Z := Z.of_nat (nat_of_ascii c) - 48.

(** Decimal digits of a non-negative number, most significant first.
    [fuel] bounds the number of digits written. *)
Fixpoint utoa (fuel : nat) (n : Z) : string :=
  match fuel with
  | O => ""
  | S fuel' =>
      if n <? 10 then String (digitChar n) ""
      else utoa fuel' (n / 10) +:+ String (digitChar (n mod 10)) ""
  end.

(** A 64-bit [int] has at most 19 decimal digits. *)
Definition maxDigits : nat := 20.

(** [strconv.Itoa] *)
Definition Itoa (i : Z) : string :=
  if i <? 0 then String "-" (utoa maxDigits (- i)) else utoa maxDigits i.

Fixpoint parseDigits (s : string) (acc : Z) : option Z :=
  match s with
  | EmptyString => Some acc
  | String c rest =>
      if isDigit c then parseDigits rest (10 * acc + digitVal c) else None
  end.

Definition maxInt64 : Z := 2 ^ 63 - 1.
Definition minInt64 : Z := - 2 ^ 63.

(** [strconv.Atoi]: an optional sign and at least one decimal digit.  On a
    syntax error the value is 0; on a range error it is the nearest
    [int64] bound. *)
Definition Atoi (s : string) : Z * option error :=
  let '(neg, body) :=
    match s with
    | String "-" rest => (true, rest)
    | String "+" rest => (false, rest)
    | _ => (false, s)
    end in
  match body with
  | EmptyString => (0, Some "invalid syntax")
  | _ =>
      match parseDigits body 0 with
      | None => (0, Some "invalid syntax")
      | Some un =>
          if neg then
            if 2 ^ 63 <? un then (minInt64, Some "value out of range")
            else (- un, None)
          else
            if 2 ^ 63 <=? un then (maxInt64, Some "value out of range")
            else (un, None)
      end
  end.

End strconv.

Definition len (s : string) : Z := Z.of_nat (String.length s).

(** The slice expression [s[lo:hi]] on a string; [None] is the run-time
    panic "slice bounds out of range". *)
Definition slice (s : string) (lo hi : Z) : option string :=
  if (0 <=? lo) && (lo <=? hi) && (hi <=? len s)
  then Some (substring (Z.to_nat lo) (Z.to_nat (hi - lo)) s)
  else None.

Module strings.

(** One pass of [strings.Split(s, " ")]: [cur] is the piece being read. *)
Fixpoint splitFrom (sep : ascii) (s : string) (cur : string) : list string :=
  match s with
  | EmptyString => [cur]
  | String c rest =>
      if Ascii.eqb c sep then cur :: splitFrom sep rest ""
      else splitFrom sep rest (cur +:+ String c "")
  end.

(** [strings.Split(s, sep)] for a one-byte separator: every occurrence of
    [sep] cuts, so the result always has at least one element. *)
Definition Split (s : string) (sep : ascii) : list string := splitFrom sep s "".

End strings.

(** ** What the code takes from the standard library as given

    [time.Time] with [time.Date(y, m, d, h, min, 0, 0, time.UTC)] and its
    accessors, and [strings.ToUpper]. *)
Class GoLib := {
  Time : Type;
  Date : Z -> Z -> Z -> Z -> Z -> Time;
  Year : Time -> Z;
  Month : Time -> Z;
  Day : Time -> Z;
  Hour : Time -> Z;
  Minute : Time -> Z;
  ToUpper : string -> string
}.

(** ** PeriodMapper *)

Section PeriodMapper.
Context `{GoLib}.

(** GetLessonNrByStart computes the lesson number by its start time *)
Definition GetLessonNrByStart (start : Time) : Z :=
  if Hour start =? 8 then
    if Minute start =? 0 then 1
    else if Minute start =? 50 then 2
    else -1
  else if Hour start =? 9 then 3
  else if Hour start =? 10 then 4
  else if Hour start =? 11 then 5
  else if Hour start =? 12 then 6
  else if Hour start =? 13 then 7
  else if Hour start =? 14 then 8
  else if Hour start =? 15 then 9
  else if Hour start =? 16 then 10
  else if Hour start =? 17 then
    if Minute start =? 0 then 11
    else if Minute start =? 45 then 12
    else -1
  else if Hour start =? 18 then 13
  else if Hour start =? 19 then 14
  else if Hour start =? 20 then 15
  else -1.

(** GetLessonNrByEnd computes the lesson number by its end time *)
Definition GetLessonNrByEnd (end_ : Time) : Z :=
  if Hour end_ =? 8 then 1
  else if Hour end_ =? 9 then 2
  else if Hour end_ =? 10 then 3
  else if Hour end_ =? 11 then 4
  else if Hour end_ =? 12 then 5
  else if Hour end_ =? 13 then 6
  else if Hour end_ =? 14 then 7
  else if Hour end_ =? 15 then 8
  else if Hour end_ =? 16 then
    if Minute end_ =? 0 then 9
    else if Minute end_ =? 50 then 10
    else -1
  else if Hour end_ =? 17 then 11
  else if Hour end_ =? 18 then 12
  else if Hour end_ =? 19 then 13
  else if Hour end_ =? 20 then 14
  else if Hour end_ =? 21 then 15
  else -1.

End PeriodMapper.

(** The period tables as the specification words them. *)
Definition periodFromStart (hour minute : Z) : Z :=
  if hour =? 8 then
    (if minute =? 0 then 1 else if minute =? 50 then 2 else -1)
  else if (9 <=? hour) && (hour <=? 16) then hour - 6
  else if hour =? 17 then
    (if minute =? 0 then 11 else if minute =? 45 then 12 else -1)
  else if (18 <=? hour) && (hour <=? 20) then hour - 5
  else -1.

Definition periodFromEnd (hour minute : Z) : Z :=
  if (8 <=? hour) && (hour <=? 15) then hour - 7
  else if hour =? 16 then
    (if minute =? 0 then 9 else if minute =? 50 then 10 else -1)
  else if (17 <=? hour) && (hour <=? 21) then hour - 6
  else -1.

(** ** Packed clock times

    The three timetable retrievals decode [StartTime] and [EndTime] with the
    same three statements:
<<
    startTime := strconv.Itoa(l.StartTime)
    startHour, _ := strconv.Atoi(startTime[0 : len(startTime)-2])
    startMinute, _ := strconv.Atoi(startTime[len(startTime)-2:])
>>
    [None] is the slice panic. *)
Definition clock (packed : Z) : option (Z * Z) :=
  let startTime := strconv.Itoa packed in
  match slice startTime 0 (len startTime - 2) with
  | None => None
  | Some hh =>
      let startHour := fst (strconv.Atoi hh) in
      match slice startTime (len startTime - 2) (len startTime) with
      | None => None
      | Some mm =>
          let startMinute := fst (strconv.Atoi mm) in
          Some (startHour, startMinute)
      end
  end.

(** ** Data model *)

(** ClientName is the name of this client communicating with the api *)
Definition ClientName : string := "Refundable".

(** Client is the struct representing the client *)
Record Client := mkClient {
  Username : string;
  Password : string;
  SessionID : string;
  PersonType : Z;
  PersonID : Z;
  Closed : bool;
  Authenticated : bool
}.

(** Go's zero value of [Client], what indexing a map yields for an absent key. *)
Definition zeroClient : Client := mkClient "" "" "" 0 0 false false.

(** Lesson represents a lesson out of a timetable ([End_] is the field
    [End]) *)
Record Lesson `{GoLib} := mkLesson {
  Start : Time;
  End_ : Time;
  ClassIDs : list Z;
  Classes : list string;
  TeacherIDs : list Z;
  Teachers : list string;
  RoomIDs : list Z;
  Rooms : list string
}.

(** ** The wire *)

(** Values the code puts into a [params] map. *)
Inductive Param :=
| PString (s : string)
| PInt (i : Z).

(** One HTTP POST of a JSON-RPC envelope [{id, method, params, jsonrpc}];
    [rq_cookie] is the [JSESSIONID] cookie ([None] for [http.Post], which
    attaches none). *)
Record Request := mkRequest {
  rq_id : Z;
  rq_method : string;
  rq_params : gmap string Param;
  rq_cookie : option string
}.

(** A decoded [interface{}] of the [authenticate] result map; [JNumber]
    carries what [int(f)] yields for the decoded [float64]. *)
Inductive JValue :=
| JString (s : string)
| JNumber (n : Z)
| JOther.

(** The anonymous result structs the code unmarshals into. *)
Record Teacher := mkTeacher {
  te_ID : Z;
  te_Name : string;
  te_ForeName : string;
  te_LongName : string;
  te_ForeColor : string;
  te_BackColor : string
}.

Record Room := mkRoom {
  ro_ID : Z;
  ro_Name : string;
  ro_Longname : string;
  ro_ForeColor : string;
  ro_BackColor : string
}.

Record Klasse := mkKlasse {
  kl_ID : Z;
  kl_Name : string;
  kl_Longname : string;
  kl_ForeColor : string;
  kl_BackColor : string;
  kl_Teacher1 : Z;
  kl_Teacher2 : Z
}.

(** [struct { ID int }] *)
Record Ref := mkRef { ref_ID : Z }.

Record Period := mkPeriod {
  pe_ID : Z;
  pe_Date : Z;
  pe_StartTime : Z;
  pe_EndTime : Z;
  pe_Kl : list Ref;
  pe_Te : list Ref;
  pe_Su : list Ref;
  pe_Ro : list Ref
}.

(** The struct [r] after [json.Unmarshal]. *)
Record Rpc (T : Type) := mkRpc {
  r_JSONRPC : string;
  r_ID : string;
  r_Result : T
}.
Arguments mkRpc {T}.
Arguments r_JSONRPC {T}.
Arguments r_ID {T}.
Arguments r_Result {T}.

(** A response body, given by what [json.Unmarshal] makes of it for each of
    the struct shapes the code decodes into. *)
Record Body := mkBody {
  asSession : error + Rpc (gmap string JValue);
  asTeachers : error + Rpc (list Teacher);
  asRooms : error + Rpc (list Room);
  asKlassen : error + Rpc (list Klasse);
  asTimetable : error + Rpc (list Period)
}.

(** [*http.Response]: [ReadAll] is [ioutil.ReadAll(resp.Body)]. *)
Record Response := mkResponse {
  ReadAll : error + Body
}.

(** Everything outside the process: the pseudo-random source
    ([Intn k] is the [k]-th draw of [rand.Intn(math.MaxInt64)]) and the
    remote service ([Do log req] is the outcome of posting [req] after the
    requests in [log]). *)
Record Env := mkEnv {
  Intn : nat -> Z;
  Do : list Request -> Request -> error + Response
}.

(** ** Process state *)

Definition loc := nat.

(** [heap]: the [Client] cells pointers refer to.
    [activeClients]: the package variable, [None] while it is the nil map.
    [drawn]: how many random ids were drawn.  [wire]: every request sent,
    oldest first. *)
Record World := mkWorld {
  heap : list Client;
  activeClients : option (gmap string Client);
  drawn : nat;
  wire : list Request
}.

Definition emptyWorld : World := mkWorld [] None 0 [].

(** A call either returns or panics. *)
Inductive Exit (A : Type) :=
| Return (a : A)
| Panic (msg : string).
Arguments Return {A}.
Arguments Panic {A}.

Definition M (A : Type) : Type := World -> Exit A * World.

Definition ret {A} (a : A) : M A := fun w => (Return a, w).

Definition bind {A B} (m : M A) (k : A -> M B) : M B :=
  fun w => match m w with
           | (Return a, w') => k a w'
           | (Panic msg, w') => (Panic msg, w')
           end.

Definition panic {A} (msg : string) : M A := fun w => (Panic msg, w).

Notation "x <- m ;; k" := (bind m (fun x => k))
  (at level 62, m at next level, right associativity).
Notation "m ;;; k" := (bind m (fun _ => k))
  (at level 62, right associativity).

(** [&client]: a fresh cell holding [c]. *)
Definition alloc (c : Client) : M loc :=
  fun w => (Return (length (heap w)),
            mkWorld (heap w ++ [c]) (activeClients w) (drawn w) (wire w)).

(** [*p] *)
Definition load (p : loc) : M Client :=
  fun w => match heap w !! p with
           | Some c => (Return c, w)
           | None => (Panic "invalid memory address or nil pointer dereference", w)
           end.

(** [*p = c] *)
Definition store (p : loc) (c : Client) : M unit :=
  fun w => match heap w !! p with
           | Some _ => (Return tt, mkWorld (<[p := c]> (heap w)) (activeClients w) (drawn w) (wire w))
           | None => (Panic "invalid memory address or nil pointer dereference", w)
           end.

Section Untis.
Context `{GoLib} (env : Env).

(** [rand.Intn(math.MaxInt64)] *)
Definition randIntn : M Z :=
  fun w => (Return (Intn env (drawn w)),
            mkWorld (heap w) (activeClients w) (S (drawn w)) (wire w)).

(** One round trip: the request goes on the wire, the service answers. *)
Definition roundTrip (req : Request) : M (error + Response) :=
  fun w => (Return (Do env (wire w) req),
            mkWorld (heap w) (activeClients w) (drawn w) (wire w ++ [req])).

(** *** ClientRegistry *)

(** CreateClient creates a new client to communicate with the API *)
Definition CreateClient (username password : string) : M loc :=
  let client := {| Username := username;
                   Password := password;
                   SessionID := "";
                   PersonType := -1;
                   PersonID := -1;
                   Closed := false;
                   Authenticated := false |} in
  fun w =>
    let m := match activeClients w with
             | None => ∅
             | Some m => m
             end in
    alloc client (mkWorld (heap w) (Some (<[username := client]> m)) (drawn w) (wire w)).

(** GetClient returns an active client using the corresponding username *)
Definition GetClient (username : string) : M loc :=
  fun w =>
    let client := match activeClients w with
                  | None => zeroClient
                  | Some m => match m !! username with
                              | Some c => c
                              | None => zeroClient
                              end
                  end in
    alloc client w.

(** DeleteClient deletes the current client out of the map of active clients *)
Definition DeleteClient (client : Client) : M unit :=
  fun w => (Return tt,
            mkWorld (heap w)
                    (match activeClients w with
                     | None => None
                     | Some m => Some (delete (Username client) m)
                     end)
                    (drawn w) (wire w)).

(** *** Transport *)

(** sendRequest helps this api to send requests to the untis api.
    [http.NewRequest] cannot fail on the constant method and URL. *)
Definition sendRequest (client : Client) (method : string)
           (params : gmap string Param) : M ((error + Response) * Z) :=
  id <- randIntn ;;
  resp <- roundTrip {| rq_id := id;
                       rq_method := method;
                       rq_params := params;
                       rq_cookie := Some (SessionID client) |} ;;
  ret (resp, id).

(** *** Session *)

(** [v, _ := m[key].(float64); int(v)] *)
Definition floatField (m : gmap string JValue) (key : string) : Z :=
  match m !! key with
  | Some (JNumber n) => n
  | _ => 0
  end.

(** Authenticate authenticates the client at the untis service *)
Definition Authenticate (client : loc) : M (option error) :=
  c <- load client ;;
  if Authenticated c then ret (Some "already authenticated")
  else
    id <- randIntn ;;
    resp <- roundTrip {| rq_id := id;
                         rq_method := "authenticate";
                         rq_params := {[ "user" := PString (Username c);
                                         "password" := PString (Password c);
                                         "client" := PString ClientName ]};
                         rq_cookie := None |} ;;
    match resp with
    | inl err => ret (Some err)
    | inr resp =>
    match ReadAll resp with
    | inl err => ret (Some err)
    | inr respBody =>
    match asSession respBody with
    | inl err => ret (Some err)
    | inr r =>
        let personType := floatField (r_Result r) "personType" in
        let personID := floatField (r_Result r) "personId" in
        if String.eqb (r_ID r) (strconv.Itoa id) then
          match r_Result r !! "sessionId" with
          | Some (JString sessionId) =>
              store client {| Username := Username c;
                              Password := Password c;
                              SessionID := sessionId;
                              PersonType := personType;
                              PersonID := personID;
                              Closed := false;
                              Authenticated := true |} ;;;
              ret None
          | _ => panic "interface conversion: interface {} is not string"
          end
        else ret (Some "IDs not matching")
    end end end.

(** Close closes an authenticated connection to the untis api *)
Definition Close (client : loc) : M (option error) :=
  c <- load client ;;
  if negb (Authenticated c) then ret (Some "not authenticated")
  else
    store client {| Username := Username c;
                    Password := Password c;
                    SessionID := SessionID c;
                    PersonType := PersonType c;
                    PersonID := PersonID c;
                    Closed := true;
                    Authenticated := false |} ;;;
    c' <- load client ;;
    sent <- sendRequest c' "logout" ∅ ;;
    match fst sent with
    | inl err => ret (Some err)
    | inr _ => ret None
    end.

(** *** ReferenceDataResolver *)

(** The inner loop of the three id resolvers,
<<
    for _, res := range r.Result {
        if id == res.ID { names = append(names, res.Name) }
    }
>>
    over a listing of records [R] with the projections [ID] and [Name]. *)
Fixpoint scanListing {R : Type} (ID : R -> Z) (Name : R -> string)
         (id : Z) (result : list R) (names : list string) : list string :=
  match result with
  | [] => names
  | res :: rest =>
      scanListing ID Name id rest
                  (if id =? ID res then names ++ [Name res] else names)
  end.

(** The outer loop, [for _, id := range ids { ... }]. *)
Fixpoint resolveIDs {R : Type} (ID : R -> Z) (Name : R -> string)
         (ids : list Z) (result : list R) (names : list string) : list string :=
  match ids with
  | [] => names
  | id :: rest =>
      resolveIDs ID Name rest result (scanListing ID Name id result names)
  end.

(** ResolveTeachers converts an array of teacher ids into an array of teacher names *)
Definition ResolveTeachers (client : Client) (ids : list Z)
  : M (list string * option error) :=
  if negb (Authenticated client) then ret (nil, Some "not authenticated")
  else
    sent <- sendRequest client "getTeachers" ∅ ;;
    let id := snd sent in
    match fst sent with
    | inl err => ret (nil, Some err)
    | inr resp =>
    match ReadAll resp with
    | inl err => ret (nil, Some err)
    | inr respBody =>
    match asTeachers respBody with
    | inl err => ret (nil, Some err)
    | inr r =>
        let rid := fst (strconv.Atoi (r_ID r)) in
        if id =? rid then
          ret (resolveIDs te_ID te_Name ids (r_Result r) [], None)
        else ret (nil, Some "ids not matching")
    end end end.

(** The scan of ResolveTeacherID,
<<
    for _, res := range r.Result {
        surname := strings.Split(res.LongName, " ")[0]
        if forename == res.ForeName && longname == surname { return res.ID, nil }
    }
    return -1, fmt.Errorf("teacher not found")
>>
    [strings.Split] never returns an empty slice, so the index [0] is the head. *)
Fixpoint findTeacher (forename longname : string) (result : list Teacher)
  : Z * option error :=
  match result with
  | [] => (-1, Some "teacher not found")
  | res :: rest =>
      let surname := hd "" (strings.Split (te_LongName res) " ") in
      if String.eqb forename (te_ForeName res) && String.eqb longname surname
      then (te_ID res, None)
      else findTeacher forename longname rest
  end.

(** ResolveTeacherID converts a teacher name to the corersponding teacher id *)
Definition ResolveTeacherID (client : Client) (teacher : string)
  : M (Z * option error) :=
  if negb (Authenticated client) then ret (-1, Some "not authenticated")
  else
    sent <- sendRequest client "getTeachers" ∅ ;;
    let id := snd sent in
    match fst sent with
    | inl err => ret (-1, Some err)
    | inr resp =>
    match ReadAll resp with
    | inl err => ret (-1, Some err)
    | inr respBody =>
    match asTeachers respBody with
    | inl err => ret (-1, Some err)
    | inr r =>
        let rid := fst (strconv.Atoi (r_ID r)) in
        if rid =? id then
          let split := strings.Split teacher " " in
          let forename := hd "" split in
          match split !! 1%nat with
          | None => panic "index out of range [1] with length 1"
          | Some second =>
              let longname := ToUpper second in
              ret (findTeacher forename longname (r_Result r))
          end
        else ret (-1, Some "ids not matching")
    end end end.

(** ResolveRooms converts an array of room ids into an array of room names *)
Definition ResolveRooms (client : Client) (ids : list Z)
  : M (list string * option error) :=
  if negb (Authenticated client) then ret (nil, Some "not authenticated")
  else
    sent <- sendRequest client "getRooms" ∅ ;;
    let id := snd sent in
    match fst sent with
    | inl err => ret (nil, Some err)
    | inr resp =>
    match ReadAll resp with
    | inl err => ret (nil, Some err)
    | inr respBody =>
    match asRooms respBody with
    | inl err => ret (nil, Some err)
    | inr r =>
        let rid := fst (strconv.Atoi (r_ID r)) in
        if id =? rid then
          ret (resolveIDs ro_ID ro_Name ids (r_Result r) [], None)
        else ret (nil, Some "ids not matching")
    end end end.

(** ResolveClasses converts an array of class ids into an array of class names *)
Definition ResolveClasses (client : Client) (ids : list Z)
  : M (list string * option error) :=
  if negb (Authenticated client) then ret (nil, Some "not authenticated")
  else
    sent <- sendRequest client "getKlassen" ∅ ;;
    let id := snd sent in
    match fst sent with
    | inl err => ret (nil, Some err)
    | inr resp =>
    match ReadAll resp with
    | inl err => ret (nil, Some err)
    | inr respBody =>
    match asKlassen respBody with
    | inl err => ret (nil, Some err)
    | inr r =>
        let rid := fst (strconv.Atoi (r_ID r)) in
        if rid =? id then
          ret (resolveIDs kl_ID kl_Name ids (r_Result r) [], None)
        else ret (nil, Some "ids not matching")
    end end end.

(** The scan of ResolveClassID. *)
Fixpoint findClass (class : string) (result : list Klasse) : Z * option error :=
  match result with
  | [] => (-1, Some "class not found")
  | res :: rest =>
      if String.eqb class (kl_Name res) then (kl_ID res, None)
      else findClass class rest
  end.

(** ResolveClassID converts a class name to the corresponding class id *)
Definition ResolveClassID (client : Client) (class : string)
  : M (Z * option error) :=
  if negb (Authenticated client) then ret (-1, Some "not authenticated")
  else
    sent <- sendRequest client "getKlassen" ∅ ;;
    let id := snd sent in
    match fst sent with
    | inl err => ret (-1, Some err)
    | inr resp =>
    match ReadAll resp with
    | inl err => ret (-1, Some err)
    | inr respBody =>
    match asKlassen respBody with
    | inl err => ret (-1, Some err)
    | inr r =>
        let rid := fst (strconv.Atoi (r_ID r)) in
        if rid =? id then ret (findClass class (r_Result r))
        else ret (-1, Some "ids not matching")
    end end end.

(** *** TimetableRetrieval *)

(** [s := strconv.Itoa(n); if len(s) == 1 { s = "0" + s }] *)
Definition twoDigits (n : Z) : string :=
  let s := strconv.Itoa n in
  if len s =? 1 then "0" +:+ s else s.

(** [strconv.Itoa(t.Year()) + smonth + sday] *)
Definition dateParam (t : Time) : string :=
  strconv.Itoa (Year t) +:+ twoDigits (Month t) +:+ twoDigits (Day t).

(** The body of [for _, l := range r.Result], the same text in the three
    retrievals; [lessons] is the list built so far. *)
Fixpoint lessonsOf (client : Client) (result : list Period)
         (lessons : list Lesson) : M (list Lesson * option error) :=
  match result with
  | [] => ret (lessons, None)
  | l :: rest =>
      let date := strconv.Itoa (pe_Date l) in
      match slice date 0 4, slice date 4 6, slice date 6 8 with
      | Some yyyy, Some mm, Some dd =>
          let year := fst (strconv.Atoi yyyy) in
          let month := fst (strconv.Atoi mm) in
          let day := fst (strconv.Atoi dd) in
          match clock (pe_StartTime l), clock (pe_EndTime l) with
          | Some (startHour, startMinute), Some (endHour, endMinute) =>
              let classIDArr := map ref_ID (pe_Kl l) in
              classes <- ResolveClasses client classIDArr ;;
              match snd classes with
              | Some err => ret (nil, Some err)
              | None =>
              let teachIDArr := map ref_ID (pe_Te l) in
              teachers <- ResolveTeachers client teachIDArr ;;
              match snd teachers with
              | Some err => ret (nil, Some err)
              | None =>
              let roomIDArr := map ref_ID (pe_Ro l) in
              rooms <- ResolveRooms client roomIDArr ;;
              match snd rooms with
              | Some err => ret (nil, Some err)
              | None =>
                  lessonsOf client rest
                    (lessons ++
                     [ {| Start := Date year month day startHour startMinute;
                          End_ := Date year month day endHour endMinute;
                          ClassIDs := classIDArr;
                          Classes := fst classes;
                          TeacherIDs := teachIDArr;
                          Teachers := fst teachers;
                          RoomIDs := roomIDArr;
                          Rooms := fst rooms |} ])
              end end end
          | _, _ => panic "slice bounds out of range"
          end
      | _, _, _ => panic "slice bounds out of range"
      end
  end.

(** From [client.sendRequest("getTimetable", params)] to the end, the same
    text in the three retrievals. *)
Definition getTimetable (client : Client) (params : gmap string Param)
  : M (list Lesson * option error) :=
  sent <- sendRequest client "getTimetable" params ;;
  let id := snd sent in
  match fst sent with
  | inl err => ret (nil, Some err)
  | inr resp =>
  match ReadAll resp with
  | inl err => ret (nil, Some err)
  | inr respBody =>
  match asTimetable respBody with
  | inl err => ret (nil, Some err)
  | inr r =>
      let rid := fst (strconv.Atoi (r_ID r)) in
      if rid =? id then lessonsOf client (r_Result r) []
      else ret (nil, Some "ids not matching")
  end end end.

(** GetTimetableOfTeacher returns a list of lessons the teacher logged in with
    the client has in between start and end *)
Definition GetTimetableOfTeacher (client : Client) (start end_ : Time)
  : M (list Lesson * option error) :=
  if negb (Authenticated client) then ret (nil, Some "not authenticated")
  else
    let params : gmap string Param :=
      {[ "id" := PInt (PersonID client);
         "type" := PInt (PersonType client);
         "startDate" := PString (dateParam start);
         "endDate" := PString (dateParam end_) ]} in
    getTimetable client params.

(** GetTimetableOfClass returns a list of lessons a specified class has in
    between start and end *)
Definition GetTimetableOfClass (client : Client) (start end_ : Time)
           (class : string) : M (list Lesson * option error) :=
  if negb (Authenticated client) then ret (nil, Some "not authenticated")
  else
    resolved <- ResolveClassID client class ;;
    let classID := fst resolved in
    let params : gmap string Param :=
      {[ "id" := PInt classID;
         "type" := PInt 1;
         "startDate" := PString (dateParam start);
         "endDate" := PString (dateParam end_) ]} in
    getTimetable client params.

(** GetTimetableOfSpecificTeacher returns a list of lessons a specified
    teacher has in between start and end *)
Definition GetTimetableOfSpecificTeacher (client : Client) (start end_ : Time)
           (teacher : string) : M (list Lesson * option error) :=
  if negb (Authenticated client) then ret (nil, Some "not authenticated")
  else
    resolved <- ResolveTeacherID client teacher ;;
    match snd resolved with
    | Some err => ret (nil, Some err)
    | None =>
        let id := fst resolved in
        let params : gmap string Param :=
          {[ "id" := PInt id;
             "type" := PInt 2;
             "startDate" := PString (dateParam start);
             "endDate" := PString (dateParam end_) ]} in
        getTimetable client params
    end.

End Untis.

(** ** Session histories *)

Inductive SessionOp :=
| OpAuthenticate
| OpClose.

Definition runOp (env : Env) (client : loc) (op : SessionOp) : M (option error) :=
  match op with
  | OpAuthenticate => Authenticate env client
  | OpClose => Close env client
  end.

(** The world after a sequence of [Authenticate] and [Close] calls on one
    client, whatever each call returned. *)
Fixpoint runOps (env : Env) (client : loc) (ops : list SessionOp) (w : World) : World :=
  match ops with
  | [] => w
  | op :: rest => runOps env client rest (snd (runOp env client op w))
  end.

(** ** Vocabulary of the statements *)

(** The request [sendRequest] puts on the wire in world [w]. *)
Definition requestOf (env : Env) (w : World) (client : Client)
           (method : string) (params : gmap string Param) : Request :=
  {| rq_id := Intn env (drawn w);
     rq_method := method;
     rq_params := params;
     rq_cookie := Some (SessionID client) |}.

(** The world once [req] was sent. *)
Definition afterSend (w : World) (req : Request) : World :=
  mkWorld (heap w) (activeClients w) (S (drawn w)) (wire w ++ [req]).

(** The service answers [req], sent in world [w], with a body that decodes
    (through [decode]) to [listing] under a response id that reads as the
    request id. *)
Definition correlated {T : Type} (decode : Body -> error + Rpc T)
           (env : Env) (w : World) (req : Request) (listing : T) : Prop :=
  exists resp body r,
    Do env (wire w) req = inr resp /\
    ReadAll resp = inr body /\
    decode body = inr r /\
    fst (strconv.Atoi (r_ID r)) = rq_id req /\
    r_Result r = listing.

(** What the id resolvers return on a correlated listing: for each input id
    in turn, the names of all records carrying that id, in listing order. *)
Definition namesFor {R : Type} (ID : R -> Z) (Name : R -> string)
           (ids : list Z) (listing : list R) : list string :=
  flat_map (fun id => map Name (filter (fun res => id = ID res) listing)) ids.


(** No byte of [s] is [sep]. *)
Fixpoint noByte (sep : ascii) (s : string) : bool :=
  match s with
  | EmptyString => true
  | String c rest => negb (Ascii.eqb c sep) && noByte sep rest
  end.

(** The match [ResolveTeacherID] tests: the forename equals the record's
    given name, and the upper-cased second piece of the display name equals
    the record's long name up to its first space, as stored. *)
Definition teacherMatches `{GoLib} (forename second : string) (res : Teacher) : Prop :=
  forename = te_ForeName res /\
  ToUpper second = hd "" (strings.Split (te_LongName res) " ").

(** The match as the specification words it: the record's first long-name
    piece is upper-cased before it is compared. *)
Definition matchesAsStated `{GoLib} (forename surnameToken : string) (res : Teacher) : Prop :=
  forename = te_ForeName res /\
  ToUpper surnameToken = ToUpper (hd "" (strings.Split (te_LongName res) " ")).

(** Every session id the service hands out is non-empty. *)
Definition tokensNonEmpty (env : Env) : Prop :=
  forall log req resp body r,
    Do env log req = inr resp ->
    ReadAll resp = inr body ->
    asSession body = inr r ->
    r_Result r !! "sessionId" <> Some (JString "").

(** The session invariant the code maintains. *)
Definition sessionInvariant (c : Client) : Prop :=
  ~ (Authenticated c = true /\ Closed c = true) /\
  (Authenticated c = false -> Closed c = false -> SessionID c = "").

(** The client [c] once [Close] has flipped its flags. *)
Definition closedOf (c : Client) : Client :=
  {| Username := Username c;
     Password := Password c;
     SessionID := SessionID c;
     PersonType := PersonType c;
     PersonID := PersonID c;
     Closed := true;
     Authenticated := false |}.

Definition withHeap (w : World) (h : list Client) : World :=
  mkWorld h (activeClients w) (drawn w) (wire w).

(** A successful handshake's client record. *)
Definition authenticatedOf (c : Client) (sessionId : string) (personType personID : Z) : Client :=
  {| Username := Username c;
     Password := Password c;
     SessionID := sessionId;
     PersonType := personType;
     PersonID := personID;
     Closed := false;
     Authenticated := true |}.

(** The facts about a client record that every [Authenticate] and [Close]
    preserves. *)
Definition sessionFacts (env : Env) (c : Client) : Prop :=
  sessionInvariant c /\
  (tokensNonEmpty env -> Authenticated c = true -> SessionID c <> "").

(** The record [CreateClient] builds. *)
Definition freshClient (username password : string) : Client :=
  mkClient username password "" (-1) (-1) false false.

(** ** A concrete library and concrete services, to run the model *)

Record Civil := mkCivil {
  civYear : Z;
  civMonth : Z;
  civDay : Z;
  civHour : Z;
  civMinute : Z
}.

Definition upperByte (c : ascii) : ascii :=
  let n := nat_of_ascii c in
  if ((97 <=? n) && (n <=? 122))%nat then ascii_of_nat (n - 32) else c.

Fixpoint upperASCII (s : string) : string :=
  match s with
  | EmptyString => EmptyString
  | String c rest => String (upperByte c) (upperASCII rest)
  end.

(** Calendar fields kept as given (what [time.Date] does for in-range
    fields) and upper-casing of ASCII letters (what [strings.ToUpper] does on
    ASCII text). *)
#[local] Instance civilLib : GoLib := {|
  Time := Civil;
  Date := mkCivil;
  Year := civYear;
  Month := civMonth;
  Day := civDay;
  Hour := civHour;
  Minute := civMinute;
  ToUpper := upperASCII
|}.

(** A body answering [req] under its own id, with the given payloads. *)
Definition answer (req : Request) (session : gmap string JValue)
           (teachers : list Teacher) (rooms : list Room)
           (klassen : list Klasse) (periods : list Period) : Response :=
  let id := strconv.Itoa (rq_id req) in
  mkResponse (inr (mkBody (inr (mkRpc "2.0" id session))
                          (inr (mkRpc "2.0" id teachers))
                          (inr (mkRpc "2.0" id rooms))
                          (inr (mkRpc "2.0" id klassen))
                          (inr (mkRpc "2.0" id periods)))).

Definition abc123 : gmap string JValue :=
  {[ "sessionId" := JString "ABC123"; "personType" := JNumber 2; "personId" := JNumber 5 ]}.

(** A service that echoes request ids; the [k]-th random id is [1000 + k]. *)
Definition service (teachers : list Teacher) (rooms : list Room)
           (klassen : list Klasse) (periods : list Period) : Env :=
  {| Intn := fun k => 1000 + Z.of_nat k;
     Do := fun _ req => inr (answer req abc123 teachers rooms klassen periods) |}.

(** The same service, unreachable for [logout]. *)
Definition logoutDown : Env :=
  {| Intn := fun k => 1000 + Z.of_nat k;
     Do := fun _ req =>
             if String.eqb (rq_method req) "logout" then inl "connection refused"
             else inr (answer req abc123 [] [] [] []) |}.

Definition jdoe : Client := mkClient "jdoe" "secret" "ABC123" 2 5 false true.
Definition guest : Client := mkClient "guest" "guest" "" (-1) (-1) false false.

Definition monday : Civil := mkCivil 2024 3 11 0 0.
Definition friday : Civil := mkCivil 2024 3 15 0 0.

Definition smiths : list Teacher :=
  [ mkTeacher 7 "SMI" "John" "SMITH Jonathan" "" "";
    mkTeacher 8 "DOE" "Jane" "DOE Jane" "" "";
    mkTeacher 7 "SMJ" "Joan" "SMITH Joan" "" "" ].

Definition fifthForm : list Klasse := [mkKlasse 1 "5AHIF" "5AHIF" "" "" 0 0].

(** ** Vocabulary of the further statements *)

(** The registry entry [GetClient] copies for [username]: the stored record,
    or the zero [Client] when the map is nil or has no such key. *)
Definition registered (w : World) (username : string) : Client :=
  default zeroClient (activeClients w ≫= (.!! username)).

(** The request [Authenticate] posts for the client record [c] in world [w]:
    no cookie, the credentials in [params]. *)
Definition loginRequest (env : Env) (w : World) (c : Client) : Request :=
  {| rq_id := Intn env (drawn w);
     rq_method := "authenticate";
     rq_params := {[ "user" := PString (Username c);
                     "password" := PString (Password c);
                     "client" := PString ClientName ]};
     rq_cookie := None |}.


(** The outcome of [Authenticate] on the unauthenticated record [c] held in
    cell [p], read off the service's answer to the login request. *)
Definition handshake (env : Env) (p : loc) (w : World) (c : Client)
  : Exit (option error) * World :=
  let req := loginRequest env w c in
  let w1 := afterSend w req in
  match Do env (wire w) req with
  | inl err => (Return (Some err), w1)
  | inr resp =>
  match ReadAll resp with
  | inl err => (Return (Some err), w1)
  | inr body =>
  match asSession body with
  | inl err => (Return (Some err), w1)
  | inr r =>
      if String.eqb (r_ID r) (strconv.Itoa (rq_id req)) then
        match r_Result r !! "sessionId" with
        | Some (JString s) =>
            (Return None,
             withHeap w1 (<[p := authenticatedOf c s
                                   (floatField (r_Result r) "personType")
                                   (floatField (r_Result r) "personId")]> (heap w)))
        | _ => (Panic "interface conversion: interface {} is not string", w1)
        end
      else (Return (Some "IDs not matching"), w1)
  end end end.

(** A service like [service], writing the response id of request [n] as
    [spell n]. *)
Definition spelling (spell : Z -> string) (klassen : list Klasse) : Env :=
  {| Intn := fun k => 1000 + Z.of_nat k;
     Do := fun _ req =>
             inr (mkResponse
                    (inr (mkBody (inr (mkRpc "2.0" (spell (rq_id req)) abc123))
                                 (inr (mkRpc "2.0" (spell (rq_id req)) []))
                                 (inr (mkRpc "2.0" (spell (rq_id req)) []))
                                 (inr (mkRpc "2.0" (spell (rq_id req)) klassen))
                                 (inr (mkRpc "2.0" (spell (rq_id req)) []))))) |}.

(** A body whose response id is the text "null". *)
Definition nullBody (klassen : list Klasse) : Body :=
  mkBody (inr (mkRpc "2.0" "null" abc123))
         (inr (mkRpc "2.0" "null" []))
         (inr (mkRpc "2.0" "null" []))
         (inr (mkRpc "2.0" "null" klassen))
         (inr (mkRpc "2.0" "null" [])).

(** A service whose [k]-th random id is [k] (the first is 0) and whose
    response id is always "null". *)
Definition nullIds (klassen : list Klasse) : Env :=
  {| Intn := fun k => Z.of_nat k;
     Do := fun _ _ => inr (mkResponse (inr (nullBody klassen))) |}.

(** The answer to [req], sent in world [w], decodes (through [decode]) to a
    response whose id does not read as the request id. *)
Definition miscorrelated {T : Type} (decode : Body -> error + Rpc T)
           (env : Env) (w : World) (req : Request) : Prop :=
  exists resp body r,
    Do env (wire w) req = inr resp /\
    ReadAll resp = inr body /\
    decode body = inr r /\
    fst (strconv.Atoi (r_ID r)) <> rq_id req.

(** A service that answers every request under the id 7. *)
Definition alwaysSeven (teachers : list Teacher) (klassen : list Klasse) : Env :=
  {| Intn := fun k => 1000 + Z.of_nat k;
     Do := fun _ _ =>
             inr (mkResponse
                    (inr (mkBody (inr (mkRpc "2.0" "7" abc123))
                                 (inr (mkRpc "2.0" "7" teachers))
                                 (inr (mkRpc "2.0" "7" []))
                                 (inr (mkRpc "2.0" "7" klassen))
                                 (inr (mkRpc "2.0" "7" []))))) |}.

(** A service that cannot be reached at all. *)
Definition unreachable : Env :=
  {| Intn := fun k => 1000 + Z.of_nat k;
     Do := fun _ _ => inl "connection refused" |}.

(** [n] written with exactly [k] decimal digits, most significant first. *)
Fixpoint fixedWidth (k : nat) (n : Z) : string :=
  match k with
  | O => ""
  | S k' => fixedWidth k' (n / 10) +:+ String (strconv.digitChar (n mod 10)) ""
  end.

(** The three statements decoding the date of a timetable record, the same
    text in the three retrievals:
<<
    date := strconv.Itoa(l.Date)
    year, _ := strconv.Atoi(date[0:4])
    month, _ := strconv.Atoi(date[4:6])
    day, _ := strconv.Atoi(date[6:8])
>>
    [None] is the slice panic. *)
Definition dateFields (packed : Z) : option (Z * Z * Z) :=
  let date := strconv.Itoa packed in
  match slice date 0 4, slice date 4 6, slice date 6 8 with
  | Some yyyy, Some mm, Some dd =>
      Some (fst (strconv.Atoi yyyy), fst (strconv.Atoi mm), fst (strconv.Atoi dd))
  | _, _, _ => None
  end.

(** The date of [t] as one packed integer, [YYYYMMDD]. *)
Definition packedDate `{GoLib} (t : Time) : Z :=
  Year t * 10000 + Month t * 100 + Day t.

(** A timetable record the decoder can read: an eight-digit date, start and
    end times of at least two digits. *)
Definition readable (l : Period) : Prop :=
  10 ^ 7 <= pe_Date l < 10 ^ 8 /\
  10 <= pe_StartTime l < 2 ^ 63 /\
  10 <= pe_EndTime l < 2 ^ 63.

(** A timetable record the decoder cannot read: a non-negative date of
    fewer than eight digits, or a single-digit start or end time (0 is what
    a missing JSON field decodes to). *)
Definition unreadable (l : Period) : Prop :=
  0 <= pe_Date l < 10 ^ 7 \/
  0 <= pe_StartTime l <= 9 \/
  0 <= pe_EndTime l <= 9.

(** The lesson the record loop builds from a readable record when the
    three listings are [klassen], [teachers] and [rooms]. *)
Definition lessonFor `{GoLib} (klassen : list Klasse) (teachers : list Teacher)
           (rooms : list Room) (l : Period) : Lesson :=
  {| Start := Date (pe_Date l / 10000) (pe_Date l / 100 mod 100) (pe_Date l mod 100)
                   (pe_StartTime l / 100) (pe_StartTime l mod 100);
     End_ := Date (pe_Date l / 10000) (pe_Date l / 100 mod 100) (pe_Date l mod 100)
                  (pe_EndTime l / 100) (pe_EndTime l mod 100);
     ClassIDs := map ref_ID (pe_Kl l);
     Classes := namesFor kl_ID kl_Name (map ref_ID (pe_Kl l)) klassen;
     TeacherIDs := map ref_ID (pe_Te l);
     Teachers := namesFor te_ID te_Name (map ref_ID (pe_Te l)) teachers;
     RoomIDs := map ref_ID (pe_Ro l);
     Rooms := namesFor ro_ID ro_Name (map ref_ID (pe_Ro l)) rooms |}.

(** The service answers every listing request of [client], in whatever
    world, with the same three listings, correlated. *)
Definition answersListings (env : Env) (client : Client) (klassen : list Klasse)
           (teachers : list Teacher) (rooms : list Room) : Prop :=
  forall w,
    correlated asKlassen env w (requestOf env w client "getKlassen" ∅) klassen /\
    correlated asTeachers env w (requestOf env w client "getTeachers" ∅) teachers /\
    correlated asRooms env w (requestOf env w client "getRooms" ∅) rooms.

(** The methods of the requests the record loop sends for [n] records:
    three listing requests per record. *)
Fixpoint listingCalls (n : nat) : list string :=
  match n with
  | O => []
  | S n' => "getKlassen" :: "getTeachers" :: "getRooms" :: listingCalls n'
  end.

(** The [params] of a timetable request. *)
Definition timetableParams `{GoLib} (id type : Z) (start end_ : Time)
  : gmap string Param :=
  {[ "id" := PInt id;
     "type" := PInt type;
     "startDate" := PString (dateParam start);
     "endDate" := PString (dateParam end_) ]}.

(** [client] acting for another person: same session, other id and type. *)
Definition actingFor (client : Client) (personID personType : Z) : Client :=
  {| Username := Username client;
     Password := Password client;
     SessionID := SessionID client;
     PersonType := personType;
     PersonID := personID;
     Closed := Closed client;
     Authenticated := Authenticated client |}.

(** A service like [service] whose random ids repeat after 1000 draws. *)
Definition school (teachers : list Teacher) (rooms : list Room)
           (klassen : list Klasse) (periods : list Period) : Env :=
  {| Intn := fun k => Z.of_nat k mod 1000;
     Do := fun _ req => inr (answer req abc123 teachers rooms klassen periods) |}.

Definition mondayFirst : Period :=
  mkPeriod 1 20240311 800 850 [mkRef 1] [mkRef 7] [] [mkRef 3].

(** A record as an answer without date and times decodes it. *)
Definition blankRecord : Period := mkPeriod 2 0 0 0 [] [] [] [].

Definition e12 : list Room := [mkRoom 3 "E12" "E12" "" ""].

(** A service whose login answer has no [sessionId]. *)
Definition tokenless : Env :=
  {| Intn := fun k => 1000 + Z.of_nat k;
     Do := fun _ req => inr (answer req {[ "personType" := JNumber 2 ]} [] [] [] []) |}.

(** * Properties *)

(** ** Running the model on small inputs *)

Example clock_800 : clock 800 = Some (8, 0).
Proof. reflexivity. Qed.

Example clock_1715 : clock 1715 = Some (17, 15).
Proof. reflexivity. Qed.

Example clock_45 : clock 45 = Some (0, 45).
Proof. reflexivity. Qed.

Example Itoa_negative : strconv.Itoa (-2024) = "-2024".
Proof. reflexivity. Qed.

Example Atoi_examples :
  strconv.Atoi "0042" = (42, None) /\ strconv.Atoi "-7" = (-7, None) /\
  fst (strconv.Atoi "") = 0 /\ fst (strconv.Atoi "12a") = 0 /\
  fst (strconv.Atoi "99999999999999999999") = strconv.maxInt64.
Proof. repeat split; reflexivity. Qed.

Example Split_examples :
  strings.Split "John SMITH" " " = ["John"; "SMITH"] /\
  strings.Split "a  b" " " = ["a"; ""; "b"] /\
  strings.Split "" " " = [""] /\
  strings.Split "solo" " " = ["solo"].
Proof. repeat split; reflexivity. Qed.

(** [strings.Split] never returns an empty slice, so indexing it at [0]
    cannot panic. *)
Lemma splitFrom_nonempty (sep : ascii) (s cur : string) :
  strings.splitFrom sep s cur <> [].
Proof.
  revert cur. induction s as [|c rest IH]; intros cur; simpl.
  - discriminate.
  - destruct (Ascii.eqb c sep); [discriminate | apply IH].
Qed.

Lemma Split_head (s : string) (sep : ascii) :
  exists first more, strings.Split s sep = first :: more.
Proof.
  unfold strings.Split.
  destruct (strings.splitFrom sep s "") as [|first more] eqn:E.
  - exfalso. exact (splitFrom_nonempty _ _ _ E).
  - eauto.
Qed.

(** ** [strconv]: rendering and reading back decimal numbers *)

Section Decimal.
Import strconv.

Lemma append_cons (c : ascii) (s t : string) :
  String c s +:+ t = String c (s +:+ t).
Proof. reflexivity. Qed.

Lemma append_nil_r (s : string) : s +:+ "" = s.
Proof.
  induction s as [|c s IH]; [reflexivity |].
  rewrite append_cons, IH. reflexivity.
Qed.

Lemma append_assoc (a b c : string) : (a +:+ b) +:+ c = a +:+ (b +:+ c).
Proof.
  induction a as [|x a IH]; [reflexivity |].
  rewrite !append_cons, IH. reflexivity.
Qed.

Lemma length_append (a b : string) :
  String.length (a +:+ b) = (String.length a + String.length b)%nat.
Proof.
  induction a as [|x a IH]; [reflexivity |].
  rewrite append_cons. cbn [String.length]. rewrite IH. reflexivity.
Qed.

Lemma substring_all (b : string) : substring 0 (String.length b) b = b.
Proof.
  induction b as [|x b IH]; [reflexivity |].
  cbn [String.length substring]. rewrite IH. reflexivity.
Qed.

Lemma substring_prefix (a b : string) : substring 0 (String.length a) (a +:+ b) = a.
Proof.
  induction a as [|x a IH]; [destruct b; reflexivity |].
  rewrite append_cons. cbn [String.length substring]. rewrite IH. reflexivity.
Qed.

Lemma substring_suffix (a b : string) :
  substring (String.length a) (String.length b) (a +:+ b) = b.
Proof.
  induction a as [|x a IH]; [apply substring_all |].
  rewrite append_cons. cbn [String.length substring]. exact IH.
Qed.

(** [s[0 : len(s)-len(b)]] and [s[len(s)-len(b):]] for [s = a + b]. *)
Lemma slice_prefix (a b : string) :
  slice (a +:+ b) 0 (len (a +:+ b) - len b) = Some a.
Proof.
  unfold slice, len. rewrite length_append.
  replace (Z.of_nat (String.length a + String.length b) - Z.of_nat (String.length b))
    with (Z.of_nat (String.length a)) by lia.
  replace (Z.of_nat (String.length a) - 0) with (Z.of_nat (String.length a)) by lia.
  rewrite Nat2Z.id. cbn [Z.to_nat]. rewrite substring_prefix.
  destruct (Z.leb_spec 0 0); [| lia].
  destruct (Z.leb_spec 0 (Z.of_nat (String.length a))); [| lia].
  destruct (Z.leb_spec (Z.of_nat (String.length a))
                       (Z.of_nat (String.length a + String.length b))); [| lia].
  reflexivity.
Qed.

Lemma slice_suffix (a b : string) :
  slice (a +:+ b) (len (a +:+ b) - len b) (len (a +:+ b)) = Some b.
Proof.
  unfold slice, len. rewrite length_append.
  replace (Z.of_nat (String.length a + String.length b) - Z.of_nat (String.length b))
    with (Z.of_nat (String.length a)) by lia.
  replace (Z.of_nat (String.length a + String.length b) - Z.of_nat (String.length a))
    with (Z.of_nat (String.length b)) by lia.
  rewrite !Nat2Z.id, substring_suffix.
  destruct (Z.leb_spec 0 (Z.of_nat (String.length a))); [| lia].
  destruct (Z.leb_spec (Z.of_nat (String.length a))
                       (Z.of_nat (String.length a + String.length b))); [| lia].
  destruct (Z.leb_spec (Z.of_nat (String.length a + String.length b))
                       (Z.of_nat (String.length a + String.length b))); [| lia].
  reflexivity.
Qed.

Lemma digit_cases (d : Z) :
  0 <= d < 10 ->
  d = 0 \/ d = 1 \/ d = 2 \/ d = 3 \/ d = 4 \/ d = 5 \/ d = 6 \/ d = 7 \/ d = 8 \/ d = 9.
Proof. lia. Qed.

Lemma digitChar_digit (d : Z) :
  0 <= d < 10 ->
  isDigit (digitChar d) = true /\ digitVal (digitChar d) = d /\
  digitChar d <> "-"%char /\ digitChar d <> "+"%char.
Proof.
  intros Hd.
  destruct (digit_cases d Hd) as [->|[->|[->|[->|[->|[->|[->|[->|[->| ->]]]]]]]]];
    repeat split; try reflexivity; discriminate.
Qed.

Lemma utoa_S (fuel : nat) (n : Z) :
  utoa (S fuel) n
  = if n <? 10 then String (digitChar n) ""
    else utoa fuel (n / 10) +:+ String (digitChar (n mod 10)) "".
Proof. reflexivity. Qed.

Lemma parseDigits_snoc (s : string) (c : ascii) :
  forall acc,
    parseDigits (s +:+ String c "") acc
    = match parseDigits s acc with
      | Some v => if isDigit c then Some (10 * v + digitVal c) else None
      | None => None
      end.
Proof.
  induction s as [|x s IH]; intros acc.
  - reflexivity.
  - rewrite append_cons. cbn [parseDigits]. destruct (isDigit x); [apply IH | reflexivity].
Qed.

(** Reading back the digits [utoa] wrote gives the number. *)
Lemma parseDigits_utoa (fuel : nat) :
  forall n, 0 <= n < 10 ^ Z.of_nat fuel -> parseDigits (utoa fuel n) 0 = Some n.
Proof.
  induction fuel as [|fuel IH]; intros n Hn.
  - cbn in Hn. assert (n = 0) as -> by lia. reflexivity.
  - rewrite utoa_S. destruct (Z.ltb_spec n 10) as [Hlt|Hge].
    + cbn [parseDigits].
      destruct (digitChar_digit n ltac:(lia)) as (-> & -> & _).
      f_equal; lia.
    + assert (Hmod : 0 <= n mod 10 < 10) by (apply Z.mod_pos_bound; lia).
      rewrite Nat2Z.inj_succ, Z.pow_succ_r in Hn by lia.
      rewrite parseDigits_snoc, IH.
      * destruct (digitChar_digit (n mod 10) Hmod) as (-> & -> & _).
        pose proof (Z.div_mod n 10). f_equal; lia.
      * split; [apply Z.div_pos; lia |].
        apply Z.div_lt_upper_bound; lia.
Qed.

(** [utoa] starts with a digit, never with a sign. *)
Lemma utoa_head (fuel : nat) :
  forall n, 0 <= n ->
            exists c rest, utoa (S fuel) n = String c rest /\
                           c <> "-"%char /\ c <> "+"%char.
Proof.
  induction fuel as [|fuel IH]; intros n Hn; rewrite utoa_S.
  - destruct (Z.ltb_spec n 10) as [Hlt|Hge].
    + destruct (digitChar_digit n ltac:(lia)) as (_ & _ & Hm & Hp). eauto.
    + assert (Hmod : 0 <= n mod 10 < 10) by (apply Z.mod_pos_bound; lia).
      destruct (digitChar_digit (n mod 10) Hmod) as (_ & _ & Hm & Hp).
      cbn [utoa]. eexists _, _. split; [reflexivity | auto].
  - destruct (Z.ltb_spec n 10) as [Hlt|Hge].
    + destruct (digitChar_digit n ltac:(lia)) as (_ & _ & Hm & Hp). eauto.
    + destruct (IH (n / 10)) as (c & rest & -> & Hm & Hp).
      { apply Z.div_pos; lia. }
      eexists _, _. split; [apply append_cons | auto].
Qed.

(** [Atoi] on an unsigned digit string within range. *)
Lemma Atoi_unsigned (c : ascii) (rest : string) (v : Z) :
  c <> "-"%char -> c <> "+"%char ->
  parseDigits (String c rest) 0 = Some v ->
  0 <= v < 2 ^ 63 ->
  Atoi (String c rest) = (v, None).
Proof.
  intros Hm Hp Hparse Hv. unfold Atoi.
  assert (Hbody : (match String c rest with
                   | String "-" rest' => (true, rest')
                   | String "+" rest' => (false, rest')
                   | _ => (false, String c rest)
                   end) = (false, String c rest)).
  { destruct c as [[] [] [] [] [] [] [] []]; try reflexivity;
      exfalso; [apply Hp | apply Hm]; reflexivity. }
  rewrite Hbody, Hparse.
  destruct (Z.leb_spec (2 ^ 63) v); [lia | reflexivity].
Qed.

Lemma Atoi_utoa (fuel : nat) (n : Z) :
  0 <= n < 10 ^ Z.of_nat (S fuel) -> n < 2 ^ 63 ->
  Atoi (utoa (S fuel) n) = (n, None).
Proof.
  intros Hn Hr.
  destruct (utoa_head fuel n ltac:(lia)) as (c & rest & Hu & Hm & Hp).
  pose proof (parseDigits_utoa (S fuel) n Hn) as Hparse.
  rewrite Hu in *. apply Atoi_unsigned; auto. lia.
Qed.

(** [Atoi] undoes [Itoa] on every non-negative [int]. *)
Lemma Atoi_Itoa (n : Z) : 0 <= n < 2 ^ 63 -> Atoi (Itoa n) = (n, None).
Proof.
  intros Hn. unfold Itoa. destruct (Z.ltb_spec n 0); [lia |].
  apply Atoi_utoa; [| lia].
  split; [lia |]. apply Z.lt_trans with (2 ^ 63); [lia | reflexivity].
Qed.

(** The decimal rendering of a number of at least two digits ends in its
    tens and units digits. *)
Lemma Itoa_last_two (t : Z) :
  10 <= t ->
  Itoa t = (if t <? 100 then "" else utoa 18 (t / 100))
             +:+ String (digitChar (t / 10 mod 10)) (String (digitChar (t mod 10)) "").
Proof.
  intros Ht. unfold Itoa. destruct (Z.ltb_spec t 0); [lia |].
  change maxDigits with (S (S 18)). rewrite utoa_S.
  destruct (Z.ltb_spec t 10); [lia |]. rewrite utoa_S.
  destruct (Z.ltb_spec (t / 10) 10) as [Hlt|Hge].
  - destruct (Z.ltb_spec t 100) as [_|Hge]; [| exfalso].
    + rewrite (Z.mod_small (t / 10) 10); [reflexivity |].
      split; [apply Z.div_pos; lia | lia].
    + assert (10 <= t / 10) by (apply Z.div_le_lower_bound; lia). lia.
  - destruct (Z.ltb_spec t 100) as [Hlt|_]; [exfalso |].
    + assert (t / 10 < 10) by (apply Z.div_lt_upper_bound; lia). lia.
    + rewrite Z.div_div by lia. change (10 * 10) with 100.
      rewrite append_assoc. reflexivity.
Qed.

End Decimal.

(** ** Packed clock times *)

Lemma Atoi_two_digits (d1 d0 : Z) :
  0 <= d1 < 10 -> 0 <= d0 < 10 ->
  strconv.Atoi (String (strconv.digitChar d1) (String (strconv.digitChar d0) ""))
  = (10 * d1 + d0, None).
Proof.
  intros H1 H0.
  destruct (digitChar_digit d1 H1) as (Hd1 & Hv1 & Hm & Hp).
  destruct (digitChar_digit d0 H0) as (Hd0 & Hv0 & _).
  apply Atoi_unsigned; try assumption; [| lia].
  cbn [strconv.parseDigits]. rewrite Hd1, Hd0, Hv1, Hv0. f_equal; lia.
Qed.

(** The decoder on every packed time of at least two digits: the hour is
    everything before the last two digits, the minute the last two. *)
Lemma clock_decodes (t : Z) :
  10 <= t < 2 ^ 63 -> clock t = Some (t / 100, t mod 100).
Proof.
  intros Ht. unfold clock. rewrite (Itoa_last_two t) by lia.
  set (hh := if t <? 100 then "" else strconv.utoa 18 (t / 100)).
  set (mm := String (strconv.digitChar (t / 10 mod 10))
                    (String (strconv.digitChar (t mod 10)) "")).
  replace (len (hh +:+ mm) - 2) with (len (hh +:+ mm) - len mm) by reflexivity.
  rewrite slice_prefix, slice_suffix.
  assert (H1 : 0 <= t / 10 mod 10 < 10) by (apply Z.mod_pos_bound; lia).
  assert (H0 : 0 <= t mod 10 < 10) by (apply Z.mod_pos_bound; lia).
  assert (Hhour : fst (strconv.Atoi hh) = t / 100).
  { subst hh. destruct (Z.ltb_spec t 100) as [Hlt|Hge].
    - rewrite Z.div_small by lia. reflexivity.
    - rewrite Atoi_utoa; [reflexivity | |].
      + split; [apply Z.div_pos; lia |].
        apply Z.div_lt_upper_bound; [lia |].
        apply Z.lt_trans with (2 ^ 63); [lia | reflexivity].
      + apply Z.le_lt_trans with t; [| lia].
        apply Z.div_le_upper_bound; lia. }
  assert (Hminute : fst (strconv.Atoi mm) = t mod 100).
  { subst mm. rewrite (Atoi_two_digits _ _ H1 H0). cbn [fst].
    clear hh Hhour. Z.div_mod_to_equations. lia. }
  rewrite Hhour, Hminute. reflexivity.
Qed.

(** A packed time of a single digit has no two-character suffix: the slice
    panics. *)
Lemma clock_single_digit (t : Z) : 0 <= t <= 9 -> clock t = None.
Proof.
  intros Ht.
  destruct (digit_cases t ltac:(lia)) as [->|[->|[->|[->|[->|[->|[->|[->|[->| ->]]]]]]]]];
    reflexivity.
Qed.




(** ** PeriodMapper *)

Ltac split_eqb :=
  repeat match goal with
         | |- context [ Z.eqb ?a ?b ] => destruct (Z.eqb_spec a b)
         end.

Ltac split_leb :=
  repeat match goal with
         | |- context [ Z.leb ?a ?b ] => destruct (Z.leb_spec a b)
         end.

Lemma GetLessonNrByStart_table `{GoLib} (start : Time) :
  GetLessonNrByStart start = periodFromStart (Hour start) (Minute start).
Proof.
  unfold GetLessonNrByStart, periodFromStart.
  generalize (Hour start) (Minute start). intros h m.
  split_eqb; subst; try reflexivity; try lia;
    split_leb; simpl; lia.
Qed.

Lemma GetLessonNrByEnd_table `{GoLib} (end_ : Time) :
  GetLessonNrByEnd end_ = periodFromEnd (Hour end_) (Minute end_).
Proof.
  unfold GetLessonNrByEnd, periodFromEnd.
  generalize (Hour end_) (Minute end_). intros h m.
  split_eqb; subst; try reflexivity; try lia;
    split_leb; simpl; lia.
Qed.

(** C7. [GetLessonNrByStart] and [GetLessonNrByEnd] are total functions of the
    hour and the minute of their argument and realise exactly the two period
    tables: start hour 8 gives 1 at minute 0 and 2 at minute 50, hours 9-16
    give 3-10, hour 17 gives 11 at minute 0 and 12 at minute 45, hours 18-20
    give 13-15; end hours 8-15 give 1-8, hour 16 gives 9 at minute 0 and 10 at
    minute 50, hours 17-21 give 11-15; every other input gives -1. *)
Theorem period_mapper_tables `{GoLib} (t : Time) :
  GetLessonNrByStart t = periodFromStart (Hour t) (Minute t) /\
  GetLessonNrByEnd t = periodFromEnd (Hour t) (Minute t).
Proof.
  split; [apply GetLessonNrByStart_table | apply GetLessonNrByEnd_table].
Qed.

(** The tables row by row, on the concrete calendar. *)
Example period_rows :
  map (fun hm => GetLessonNrByStart (mkCivil 2024 3 11 (fst hm) (snd hm)))
      [(8, 0); (8, 50); (8, 5); (9, 0); (16, 30); (17, 0); (17, 45); (17, 1);
       (18, 0); (20, 59); (21, 0); (7, 0); (0, 0)]
  = [1; 2; -1; 3; 10; 11; 12; -1; 13; 15; -1; -1; -1] /\
  map (fun hm => GetLessonNrByEnd (mkCivil 2024 3 11 (fst hm) (snd hm)))
      [(8, 50); (15, 0); (16, 0); (16, 50); (16, 10); (17, 0); (21, 30);
       (22, 0); (7, 59)]
  = [1; 8; 9; 10; -1; 11; 15; -1; -1].
Proof. split; reflexivity. Qed.

(** ** Session: precondition failures *)

(** C8. [Authenticate] on a client that is already authenticated returns the
    error "already authenticated" and leaves the whole world as it was: the
    session token, the other fields of the client, the registry, and the
    wire (no request is sent). *)
Theorem Authenticate_already_authenticated
        (env : Env) (client : loc) (w : World) (c : Client) :
  heap w !! client = Some c ->
  Authenticated c = true ->
  Authenticate env client w = (Return (Some "already authenticated"), w).
Proof.
  intros Hc Ha. unfold Authenticate, bind, load.
  rewrite Hc, Ha. reflexivity.
Qed.

Lemma Authenticate_already_authenticated_witness :
  Authenticate (service [] [] [] []) 0%nat (mkWorld [jdoe] None 0 [])
  = (Return (Some "already authenticated"), mkWorld [jdoe] None 0 []).
Proof.
  apply (Authenticate_already_authenticated _ 0%nat (mkWorld [jdoe] None 0 []) jdoe);
    reflexivity.
Defined.

(** C9. On a session whose [Authenticated] flag is false, each of the three
    timetable retrievals, the five resolvers and [Close] returns the error
    "not authenticated" and leaves the world, in particular the wire,
    untouched: no request is sent. *)
Theorem not_authenticated_fails_fast `{GoLib}
        (env : Env) (client : Client) (w : World) :
  Authenticated client = false ->
  (forall start end_,
      GetTimetableOfTeacher env client start end_ w
      = (Return ([], Some "not authenticated"), w)) /\
  (forall start end_ class,
      GetTimetableOfClass env client start end_ class w
      = (Return ([], Some "not authenticated"), w)) /\
  (forall start end_ teacher,
      GetTimetableOfSpecificTeacher env client start end_ teacher w
      = (Return ([], Some "not authenticated"), w)) /\
  (forall ids, ResolveTeachers env client ids w
               = (Return ([], Some "not authenticated"), w)) /\
  (forall ids, ResolveRooms env client ids w
               = (Return ([], Some "not authenticated"), w)) /\
  (forall ids, ResolveClasses env client ids w
               = (Return ([], Some "not authenticated"), w)) /\
  (forall teacher, ResolveTeacherID env client teacher w
                   = (Return (-1, Some "not authenticated"), w)) /\
  (forall class, ResolveClassID env client class w
                 = (Return (-1, Some "not authenticated"), w)) /\
  (forall p, heap w !! p = Some client ->
             Close env p w = (Return (Some "not authenticated"), w)).
Proof.
  intros Hna.
  unfold GetTimetableOfTeacher, GetTimetableOfClass, GetTimetableOfSpecificTeacher,
    ResolveTeachers, ResolveRooms, ResolveClasses, ResolveTeacherID, ResolveClassID.
  rewrite Hna. simpl.
  repeat split; try reflexivity.
  intros p Hp. unfold Close, bind, load. rewrite Hp, Hna. reflexivity.
Qed.

Lemma not_authenticated_fails_fast_witness :
  GetTimetableOfClass (service [] [] [] []) guest monday friday "5AHIF"
                      (mkWorld [guest] None 0 [])
  = (Return ([], Some "not authenticated"), mkWorld [guest] None 0 []) /\
  Close (service [] [] [] []) 0%nat (mkWorld [guest] None 0 [])
  = (Return (Some "not authenticated"), mkWorld [guest] None 0 []).
Proof.
  pose proof (not_authenticated_fails_fast (service [] [] [] []) guest
                (mkWorld [guest] None 0 []) eq_refl) as (_ & Hclass & _ & _ & _ & _ & _ & _ & Hclose).
  split; [apply Hclass | apply Hclose; reflexivity].
Defined.

(** ** Session: [Close] *)

Lemma heap_update_lookup (h : list Client) (p : loc) (c c' : Client) :
  h !! p = Some c -> <[p := c']> h !! p = Some c'.
Proof.
  intros Hp. apply list_lookup_insert_eq. eapply lookup_lt_Some. exact Hp.
Qed.

(** [Close] on an authenticated client: the flags are stored first, and the
    logout request is sent from the world that already holds them. *)
Lemma Close_authenticated (env : Env) (p : loc) (w : World) (c : Client) :
  heap w !! p = Some c ->
  Authenticated c = true ->
  Close env p w
  = bind (sendRequest env (closedOf c) "logout" ∅)
         (fun sent => match fst sent with
                      | inl err => ret (Some err)
                      | inr _ => ret None
                      end)
         (withHeap w (<[p := closedOf c]> (heap w))).
Proof.
  intros Hp Ha. unfold Close, load, store.
  unfold bind at 1. rewrite Hp, Ha. cbn [negb].
  unfold bind at 1. rewrite Hp.
  unfold bind at 1. cbn [heap].
  rewrite (heap_update_lookup _ _ _ _ Hp). reflexivity.
Qed.

(** The outcome of [Close] on an authenticated client. *)
Lemma Close_run (env : Env) (p : loc) (w : World) (c : Client) :
  heap w !! p = Some c ->
  Authenticated c = true ->
  Close env p w
  = (Return (match Do env (wire w) (requestOf env w (closedOf c) "logout" ∅) with
             | inl err => Some err
             | inr _ => None
             end),
     afterSend (withHeap w (<[p := closedOf c]> (heap w)))
               (requestOf env w (closedOf c) "logout" ∅)).
Proof.
  intros Hp Ha. rewrite (Close_authenticated env p w c Hp Ha).
  unfold requestOf, afterSend, withHeap.
  unfold bind, sendRequest, bind, randIntn, roundTrip, ret. cbn.
  destruct (Do env (wire w) _); reflexivity.
Qed.

(** C10. [Close] on an authenticated client stores [Closed = true] and
    [Authenticated = false] before the logout request goes out (the request
    is sent from the world that already holds the new flags); whatever the
    transport answers, and in particular when it fails and [Close] returns
    that error, the client stays closed and unauthenticated with its
    [SessionID] as before. *)
Theorem Close_not_rolled_back (env : Env) (p : loc) (w : World) (c : Client) :
  heap w !! p = Some c ->
  Authenticated c = true ->
  let w1 := withHeap w (<[p := closedOf c]> (heap w)) in
  let req := requestOf env w (closedOf c) "logout" ∅ in
  Close env p w
  = bind (sendRequest env (closedOf c) "logout" ∅)
         (fun sent => match fst sent with
                      | inl err => ret (Some err)
                      | inr _ => ret None
                      end)
         w1 /\
  Close env p w
  = (Return (match Do env (wire w) req with
             | inl err => Some err
             | inr _ => None
             end),
     afterSend w1 req) /\
  heap (afterSend w1 req) !! p = Some (closedOf c) /\
  Closed (closedOf c) = true /\
  Authenticated (closedOf c) = false /\
  SessionID (closedOf c) = SessionID c /\
  (forall err, Do env (wire w) req = inl err ->
               fst (Close env p w) = Return (Some err) /\
               heap (snd (Close env p w)) !! p = Some (closedOf c)).
Proof.
  intros Hp Ha w1 req.
  pose proof (Close_run env p w c Hp Ha) as HC. fold req w1 in HC.
  assert (HH : heap (afterSend w1 req) !! p = Some (closedOf c)).
  { cbn. apply (heap_update_lookup _ _ _ _ Hp). }
  split; [exact (Close_authenticated env p w c Hp Ha) |].
  split; [exact HC |]. split; [exact HH |].
  split; [reflexivity |]. split; [reflexivity |]. split; [reflexivity |].
  intros failure Hfail. rewrite HC. split; [| exact HH].
  cbn [fst]. rewrite Hfail. reflexivity.
Qed.

Lemma Close_not_rolled_back_witness :
  fst (Close logoutDown 0%nat (mkWorld [jdoe] None 0 []))
  = Return (Some "connection refused") /\
  heap (snd (Close logoutDown 0%nat (mkWorld [jdoe] None 0 []))) !! 0%nat
  = Some (mkClient "jdoe" "secret" "ABC123" 2 5 true false).
Proof.
  destruct (Close_not_rolled_back logoutDown 0%nat (mkWorld [jdoe] None 0 []) jdoe
              eq_refl eq_refl) as (_ & _ & _ & _ & _ & _ & Herr).
  apply (Herr "connection refused"). reflexivity.
Defined.

(** ** Session: what one call can do to the client cell *)

(** [Authenticate] never touches the registry, and either leaves the heap as
    it is or overwrites the client's cell with an authenticated record whose
    token is a [sessionId] string the service delivered. *)
Lemma Authenticate_effect (env : Env) (p : loc) (w : World) (c : Client) :
  heap w !! p = Some c ->
  activeClients (snd (Authenticate env p w)) = activeClients w /\
  (heap (snd (Authenticate env p w)) = heap w \/
   exists log req resp body r s pt pid,
     Do env log req = inr resp /\
     ReadAll resp = inr body /\
     asSession body = inr r /\
     r_Result r !! "sessionId" = Some (JString s) /\
     heap (snd (Authenticate env p w)) = <[p := authenticatedOf c s pt pid]> (heap w)).
Proof.
  intros Hp. unfold Authenticate, load, bind, randIntn, roundTrip, store, ret, panic.
  cbv beta. rewrite !Hp. cbv beta iota.
  destruct (Authenticated c); [cbn; auto |].
  cbn [heap activeClients wire drawn].
  match goal with
  | |- context [ Do env ?log ?req ] =>
      destruct (Do env log req) as [err|resp] eqn:HDo; [cbn; auto |]
  end.
  destruct (ReadAll resp) as [err|body] eqn:HRead; [cbn; auto |].
  destruct (asSession body) as [err|r] eqn:HJson; [cbn; auto |].
  match goal with
  | |- context [ String.eqb ?a ?b ] => destruct (String.eqb a b); [| cbn; auto]
  end.
  destruct (r_Result r !! "sessionId") as [[s|n|]|] eqn:HSid; try (cbn; auto; fail).
  cbn [heap activeClients wire drawn]. rewrite !Hp. cbn.
  split; [reflexivity |].
  right. do 8 eexists. repeat split; eauto.
Qed.

(** [Close] never touches the registry, and either leaves the heap as it is
    or overwrites the cell of an authenticated client with its closed form. *)
Lemma Close_effect (env : Env) (p : loc) (w : World) (c : Client) :
  heap w !! p = Some c ->
  activeClients (snd (Close env p w)) = activeClients w /\
  (heap (snd (Close env p w)) = heap w \/
   (Authenticated c = true /\
    heap (snd (Close env p w)) = <[p := closedOf c]> (heap w))).
Proof.
  intros Hp. destruct (Authenticated c) eqn:Ha.
  - rewrite (Close_run env p w c Hp Ha). cbn. auto.
  - unfold Close, load, bind. cbv beta. rewrite !Hp. cbv beta iota.
    rewrite !Ha. cbn. auto.
Qed.

Lemma runOp_preserves (env : Env) (p : loc) (op : SessionOp) (w : World) (c : Client) :
  heap w !! p = Some c ->
  sessionFacts env c ->
  activeClients (snd (runOp env p op w)) = activeClients w /\
  exists c', heap (snd (runOp env p op w)) !! p = Some c' /\
             Username c' = Username c /\ Password c' = Password c /\
             sessionFacts env c'.
Proof.
  intros Hp Hc. destruct op; cbn [runOp].
  - destruct (Authenticate_effect env p w c Hp) as (Hreg & [Hsame | Hnew]).
    + split; [exact Hreg |]. exists c. rewrite Hsame. auto.
    + destruct Hnew as (log & req & resp & body & r & s & pt & pid
                        & HDo & HRead & HJson & HSid & Hheap).
      split; [exact Hreg |].
      exists (authenticatedOf c s pt pid). rewrite Hheap.
      split; [apply (heap_update_lookup _ _ _ _ Hp) |].
      repeat split; cbn; try congruence.
      * intros [_ Hcl]. discriminate.
      * intros Htok _ ->. exact (Htok _ _ _ _ _ HDo HRead HJson HSid).
  - destruct (Close_effect env p w c Hp) as (Hreg & [Hsame | (Ha & Hnew)]).
    + split; [exact Hreg |]. exists c. rewrite Hsame. auto.
    + split; [exact Hreg |].
      exists (closedOf c). rewrite Hnew.
      split; [apply (heap_update_lookup _ _ _ _ Hp) |].
      repeat split; cbn; try congruence.
      intros [Hau _]. discriminate.
Qed.

Lemma runOps_preserves (env : Env) (p : loc) (ops : list SessionOp) :
  forall (w : World) (c : Client),
    heap w !! p = Some c ->
    sessionFacts env c ->
    activeClients (runOps env p ops w) = activeClients w /\
    exists c', heap (runOps env p ops w) !! p = Some c' /\
               Username c' = Username c /\ Password c' = Password c /\
               sessionFacts env c'.
Proof.
  induction ops as [|op rest IH]; intros w c Hp Hc; cbn [runOps].
  - split; [reflexivity |]. exists c. auto.
  - destruct (runOp_preserves env p op w c Hp Hc)
      as (Hreg & c1 & Hp1 & Hu1 & Hpw1 & Hc1).
    destruct (IH _ c1 Hp1 Hc1) as (Hreg' & c2 & Hp2 & Hu2 & Hpw2 & Hc2).
    split; [congruence |].
    exists c2. repeat split; try congruence; apply Hc2.
Qed.

Lemma CreateClient_effect (username password : string) (w : World) :
  exists m,
    CreateClient username password w
    = (Return (length (heap w)),
       mkWorld (heap w ++ [freshClient username password])
               (Some (<[username := freshClient username password]> m))
               (drawn w) (wire w)).
Proof.
  unfold CreateClient, alloc. cbn.
  destruct (activeClients w) as [m|]; eexists; reflexivity.
Qed.

Lemma freshClient_facts (env : Env) (username password : string) :
  sessionFacts env (freshClient username password).
Proof.
  repeat split; cbn; try congruence.
  intros [Hau _]. discriminate.
Qed.

(** C2 (amended). For a client created by [CreateClient] and driven by any
    sequence of [Authenticate] and [Close] calls: [Authenticated] and
    [Closed] are never both true; while the client is neither authenticated
    nor closed its token is empty; and if the service never hands out an
    empty session id, an authenticated client has a non-empty token.  (After
    [Close] the token is kept, so a non-empty token does not imply
    [Authenticated].) *)
Theorem session_invariant (env : Env) (username password : string)
        (w : World) (ops : list SessionOp) :
  exists p w1,
    CreateClient username password w = (Return p, w1) /\
    exists c,
      heap (runOps env p ops w1) !! p = Some c /\
      ~ (Authenticated c = true /\ Closed c = true) /\
      (Authenticated c = false -> Closed c = false -> SessionID c = "") /\
      (tokensNonEmpty env -> Authenticated c = true -> SessionID c <> "").
Proof.
  destruct (CreateClient_effect username password w) as (m & HC).
  set (w1 := mkWorld _ _ _ _) in HC.
  exists (length (heap w)), w1. split; [exact HC |].
  destruct (runOps_preserves env (length (heap w)) ops w1
              (freshClient username password))
    as (_ & c & Hp & _ & _ & Hinv & Htok).
  - subst w1. cbn [heap]. apply list_lookup_middle. reflexivity.
  - apply (freshClient_facts env username password).
  - exists c. split; [exact Hp |]. destruct Hinv as (H1 & H2). auto.
Qed.

Lemma service_tokensNonEmpty (teachers : list Teacher) (rooms : list Room)
      (klassen : list Klasse) (periods : list Period) :
  tokensNonEmpty (service teachers rooms klassen periods).
Proof.
  intros log req resp body r HDo HRead HJson.
  cbn in HDo. injection HDo as <-.
  cbn in HRead. injection HRead as <-.
  cbn in HJson. injection HJson as <-.
  cbn [r_Result]. vm_compute. discriminate.
Qed.

Lemma session_invariant_witness :
  exists c,
    heap (runOps (service [] [] [] []) 0%nat [OpAuthenticate; OpClose; OpAuthenticate]
                 (snd (CreateClient "jdoe" "secret" emptyWorld))) !! 0%nat = Some c /\
    Authenticated c = true /\ Closed c = false /\ SessionID c <> "".
Proof.
  destruct (session_invariant (service [] [] [] []) "jdoe" "secret" emptyWorld
              [OpAuthenticate; OpClose; OpAuthenticate])
    as (p & w1 & HC & c & Hp & Hflags & _ & Htok).
  injection HC as <- <-.
  exists c. split; [exact Hp |].
  assert (Ha : Authenticated c = true).
  { vm_compute in Hp. injection Hp as <-. reflexivity. }
  split; [exact Ha |]. split.
  - destruct (Closed c); [exfalso; apply Hflags; auto | reflexivity].
  - apply Htok; [apply service_tokensNonEmpty | exact Ha].
Defined.

(** C2, as first stated, fails: after a successful [Authenticate] and a
    [Close] the client is not authenticated and still holds the token. *)
Lemma token_outlives_close :
  exists c,
    heap (runOps (service [] [] [] []) 0%nat [OpAuthenticate; OpClose]
                 (snd (CreateClient "jdoe" "secret" emptyWorld))) !! 0%nat = Some c /\
    fst (CreateClient "jdoe" "secret" emptyWorld) = Return 0%nat /\
    ~ (SessionID c <> "" <-> Authenticated c = true).
Proof.
  exists (mkClient "jdoe" "secret" "ABC123" 2 5 true false).
  split; [vm_compute; reflexivity |].
  split; [reflexivity |].
  cbn. intros [Hto _].
  assert (Hne : "ABC123" <> "") by discriminate.
  specialize (Hto Hne). discriminate.
Qed.

(** ** ClientRegistry *)

(** [GetClient] hands out a pointer to a new cell holding a copy of the
    registry entry (or the zero [Client]). *)
Lemma GetClient_effect (username : string) (w : World) :
  GetClient username w
  = (Return (length (heap w)),
     withHeap w (heap w ++ [default zeroClient (activeClients w ≫= (.!! username))])).
Proof.
  unfold GetClient, alloc, withHeap.
  destruct (activeClients w) as [m|]; cbn; [| reflexivity].
  destruct (m !! username); reflexivity.
Qed.

(** Whatever [Authenticate] and [Close] calls are made through the handle
    [CreateClient] returned, a later [GetClient] for the same username yields
    the record as [CreateClient] built it: unauthenticated, with an empty
    token. *)
Lemma registry_entry_never_changes (env : Env) (username password : string)
      (w : World) (ops : list SessionOp) :
  exists p w1,
    CreateClient username password w = (Return p, w1) /\
    exists q w3,
      GetClient username (runOps env p ops w1) = (Return q, w3) /\
      q <> p /\
      heap w3 !! q = Some (freshClient username password).
Proof.
  destruct (CreateClient_effect username password w) as (m & HC).
  set (w1 := mkWorld _ _ _ _) in HC.
  exists (length (heap w)), w1. split; [exact HC |].
  destruct (runOps_preserves env (length (heap w)) ops w1
              (freshClient username password))
    as (Hreg & c & Hp & _).
  - subst w1. cbn [heap]. apply list_lookup_middle. reflexivity.
  - apply freshClient_facts.
  - rewrite GetClient_effect. eexists _, _. split; [reflexivity |]. split.
    + apply lookup_lt_Some in Hp. lia.
    + cbn [heap withHeap]. rewrite Hreg. subst w1. cbn [activeClients].
      cbn [mbind option_bind]. rewrite lookup_insert_eq. cbn [default].
      apply list_lookup_middle. reflexivity.
Qed.

(** C1 at its failing input.  [CreateClient("jdoe", "secret")], then a
    successful [Authenticate] through the returned handle (the handle is
    authenticated and holds "ABC123"), then [GetClient("jdoe")]: the client
    looked up is unauthenticated and has no token. *)
Theorem registry_lookup_misses_authentication :
  exists p w1 w2 q w3 handle entry,
    CreateClient "jdoe" "secret" emptyWorld = (Return p, w1) /\
    Authenticate (service [] [] [] []) p w1 = (Return None, w2) /\
    heap w2 !! p = Some handle /\
    Authenticated handle = true /\ SessionID handle = "ABC123" /\
    GetClient "jdoe" w2 = (Return q, w3) /\
    heap w3 !! q = Some entry /\
    Authenticated entry = false /\ SessionID entry = "".
Proof.
  do 7 eexists.
  split; [reflexivity |].
  split; [vm_compute; reflexivity |].
  split; [reflexivity |].
  split; [reflexivity |].
  split; [reflexivity |].
  split; [vm_compute; reflexivity |].
  split; [reflexivity |].
  split; reflexivity.
Qed.

(** ** ReferenceDataResolver: id lists *)

Section Listing.
Context {R : Type} (ID : R -> Z) (Name : R -> string).

Lemma scanListing_spec (id : Z) (result : list R) :
  forall names,
    scanListing ID Name id result names
    = (names ++ map Name (filter (fun res => id = ID res) result))%list.
Proof.
  induction result as [|res rest IH]; intros names; cbn [scanListing].
  - rewrite filter_nil. cbn. symmetry. apply app_nil_r.
  - rewrite IH, filter_cons.
    destruct (Z.eqb_spec id (ID res)) as [Heq|Hne].
    + rewrite decide_True by exact Heq. cbn [map].
      rewrite <- app_assoc. reflexivity.
    + rewrite decide_False by exact Hne. reflexivity.
Qed.

Lemma resolveIDs_spec (ids : list Z) (result : list R) :
  forall names,
    resolveIDs ID Name ids result names
    = (names ++ namesFor ID Name ids result)%list.
Proof.
  induction ids as [|id rest IH]; intros names; cbn [resolveIDs].
  - unfold namesFor. cbn. symmetry. apply app_nil_r.
  - rewrite IH, scanListing_spec. unfold namesFor. cbn [flat_map].
    rewrite <- app_assoc. reflexivity.
Qed.

(** An id carried by no record contributes nothing. *)
Lemma unmatched_id_skipped (id : Z) (listing : list R) :
  (forall res, In res listing -> ID res <> id) ->
  map Name (filter (fun res => id = ID res) listing) = [].
Proof.
  intros Hno. induction listing as [|res rest IH]; [reflexivity |].
  rewrite filter_cons, decide_False.
  - apply IH. intros res' Hin. apply Hno. right. exact Hin.
  - intros Heq. apply (Hno res); [left; reflexivity | congruence].
Qed.

(** In a listing without repeated ids, an id matches at most one record. *)
Lemma unique_id_one_match (id : Z) (listing : list R) :
  NoDup (map ID listing) ->
  (length (filter (fun res => id = ID res) listing) <= 1)%nat.
Proof.
  induction listing as [|res rest IH]; intros Hnd; [cbn; lia |].
  cbn [map] in Hnd. apply NoDup_cons in Hnd as [Hnotin Hnd].
  rewrite filter_cons. destruct (decide (id = ID res)) as [Heq|Hne].
  - cbn [length].
    assert (Hnone : filter (fun res' => id = ID res') rest = []).
    { clear IH Hnd. induction rest as [|res' rest' IH']; [reflexivity |].
      rewrite filter_cons, decide_False.
      - apply IH'. intros Hin. apply Hnotin. cbn [map].
        apply elem_of_cons. right. exact Hin.
      - intros Heq'. apply Hnotin. cbn [map].
        apply elem_of_cons. left. congruence. }
    rewrite Hnone. cbn. lia.
  - apply IH. exact Hnd.
Qed.

Lemma namesFor_length_unique (ids : list Z) (listing : list R) :
  NoDup (map ID listing) ->
  (length (namesFor ID Name ids listing) <= length ids)%nat.
Proof.
  intros Hnd. unfold namesFor.
  induction ids as [|id rest IH]; [cbn; lia |].
  cbn [flat_map length]. rewrite length_app, length_map.
  pose proof (unique_id_one_match id listing Hnd). lia.
Qed.

Lemma namesFor_length (ids : list Z) (listing : list R) :
  (length (namesFor ID Name ids listing) <= length ids * length listing)%nat.
Proof.
  unfold namesFor.
  induction ids as [|id rest IH]; [cbn; lia |].
  cbn [flat_map length]. rewrite length_app, length_map.
  pose proof (length_filter (fun res => id = ID res) listing) as Hf. lia.
Qed.

End Listing.

Lemma sendRequest_run (env : Env) (client : Client) (method : string)
      (params : gmap string Param) (w : World) :
  sendRequest env client method params w
  = (Return (Do env (wire w) (requestOf env w client method params),
             Intn env (drawn w)),
     afterSend w (requestOf env w client method params)).
Proof. reflexivity. Qed.

Ltac run_request Ha HDo HRead HJson Hid :=
  rewrite Ha; cbn [negb]; unfold bind; rewrite sendRequest_run;
  cbn [fst snd]; rewrite HDo, HRead, HJson, Hid;
  cbn [rq_id requestOf]; rewrite Z.eqb_refl; unfold ret.

Lemma ResolveTeachers_correlated (env : Env) (client : Client) (ids : list Z)
      (w : World) (listing : list Teacher) :
  Authenticated client = true ->
  correlated asTeachers env w (requestOf env w client "getTeachers" ∅) listing ->
  ResolveTeachers env client ids w
  = (Return (namesFor te_ID te_Name ids listing, None),
     afterSend w (requestOf env w client "getTeachers" ∅)).
Proof.
  intros Ha (resp & body & r & HDo & HRead & HJson & Hid & Hres).
  unfold ResolveTeachers. run_request Ha HDo HRead HJson Hid.
  rewrite resolveIDs_spec, Hres. reflexivity.
Qed.

Lemma ResolveRooms_correlated (env : Env) (client : Client) (ids : list Z)
      (w : World) (listing : list Room) :
  Authenticated client = true ->
  correlated asRooms env w (requestOf env w client "getRooms" ∅) listing ->
  ResolveRooms env client ids w
  = (Return (namesFor ro_ID ro_Name ids listing, None),
     afterSend w (requestOf env w client "getRooms" ∅)).
Proof.
  intros Ha (resp & body & r & HDo & HRead & HJson & Hid & Hres).
  unfold ResolveRooms. run_request Ha HDo HRead HJson Hid.
  rewrite resolveIDs_spec, Hres. reflexivity.
Qed.

Lemma ResolveClasses_correlated (env : Env) (client : Client) (ids : list Z)
      (w : World) (listing : list Klasse) :
  Authenticated client = true ->
  correlated asKlassen env w (requestOf env w client "getKlassen" ∅) listing ->
  ResolveClasses env client ids w
  = (Return (namesFor kl_ID kl_Name ids listing, None),
     afterSend w (requestOf env w client "getKlassen" ∅)).
Proof.
  intros Ha (resp & body & r & HDo & HRead & HJson & Hid & Hres).
  unfold ResolveClasses. run_request Ha HDo HRead HJson Hid.
  rewrite resolveIDs_spec, Hres. reflexivity.
Qed.

(** C3 (amended). On an authenticated client and a correlated listing,
    [ResolveTeachers], [ResolveRooms] and [ResolveClasses] return, without
    error, for each input id in input order the names of all listing records
    carrying that id, in listing order; ids carried by no record contribute
    nothing.  The result has at most [|ids| * |listing|] names, and at most
    [|ids|] names when no id occurs twice in the listing. *)
Theorem resolvers_return_every_match (env : Env) (client : Client)
        (ids : list Z) (w : World) :
  Authenticated client = true ->
  (forall listing,
      correlated asTeachers env w (requestOf env w client "getTeachers" ∅) listing ->
      ResolveTeachers env client ids w
      = (Return (namesFor te_ID te_Name ids listing, None),
         afterSend w (requestOf env w client "getTeachers" ∅)) /\
      (length (namesFor te_ID te_Name ids listing) <= length ids * length listing)%nat /\
      (NoDup (map te_ID listing) ->
       (length (namesFor te_ID te_Name ids listing) <= length ids)%nat)) /\
  (forall listing,
      correlated asRooms env w (requestOf env w client "getRooms" ∅) listing ->
      ResolveRooms env client ids w
      = (Return (namesFor ro_ID ro_Name ids listing, None),
         afterSend w (requestOf env w client "getRooms" ∅)) /\
      (length (namesFor ro_ID ro_Name ids listing) <= length ids * length listing)%nat /\
      (NoDup (map ro_ID listing) ->
       (length (namesFor ro_ID ro_Name ids listing) <= length ids)%nat)) /\
  (forall listing,
      correlated asKlassen env w (requestOf env w client "getKlassen" ∅) listing ->
      ResolveClasses env client ids w
      = (Return (namesFor kl_ID kl_Name ids listing, None),
         afterSend w (requestOf env w client "getKlassen" ∅)) /\
      (length (namesFor kl_ID kl_Name ids listing) <= length ids * length listing)%nat /\
      (NoDup (map kl_ID listing) ->
       (length (namesFor kl_ID kl_Name ids listing) <= length ids)%nat)).
Proof.
  intros Ha. repeat split.
  - apply ResolveTeachers_correlated; assumption.
  - apply namesFor_length.
  - apply namesFor_length_unique.
  - apply ResolveRooms_correlated; assumption.
  - apply namesFor_length.
  - apply namesFor_length_unique.
  - apply ResolveClasses_correlated; assumption.
  - apply namesFor_length.
  - apply namesFor_length_unique.
Qed.

Lemma service_correlated {T : Type} (decode : Body -> error + Rpc T)
      (teachers : list Teacher) (rooms : list Room) (klassen : list Klasse)
      (periods : list Period) (w : World) (req : Request) (listing : T) :
  0 <= rq_id req < 2 ^ 63 ->
  (forall id session,
      decode (mkBody (inr (mkRpc "2.0" id session)) (inr (mkRpc "2.0" id teachers))
                     (inr (mkRpc "2.0" id rooms)) (inr (mkRpc "2.0" id klassen))
                     (inr (mkRpc "2.0" id periods)))
      = inr (mkRpc "2.0" id listing)) ->
  correlated decode (service teachers rooms klassen periods) w req listing.
Proof.
  intros Hid Hdec. unfold correlated, service, answer. cbn.
  eexists _, _, _. split; [reflexivity |]. cbn.
  split; [reflexivity |]. split; [apply Hdec |]. cbn.
  rewrite (Atoi_Itoa _ Hid). auto.
Qed.

Lemma resolvers_return_every_match_witness :
  ResolveTeachers (service smiths [] [] []) jdoe [8; 99; 7] emptyWorld
  = (Return (["DOE"; "SMI"; "SMJ"], None),
     afterSend emptyWorld
               (requestOf (service smiths [] [] []) emptyWorld jdoe "getTeachers" ∅)).
Proof.
  destruct (resolvers_return_every_match (service smiths [] [] []) jdoe [8; 99; 7]
              emptyWorld eq_refl) as (Hte & _ & _).
  destruct (Hte smiths) as (Hrun & _ & _).
  - apply service_correlated; [cbn; lia | reflexivity].
  - exact Hrun.
Defined.

(** C3, as first stated, fails: one input id, two listing records carrying
    it, two names returned - both matches are appended, not only the first. *)
Lemma duplicate_ids_yield_extra_names :
  exists names,
    fst (ResolveTeachers (service smiths [] [] []) jdoe [7] emptyWorld)
    = Return (names, None) /\
    names = ["SMI"; "SMJ"] /\
    ~ (length names <= length [7])%nat.
Proof.
  eexists. split; [vm_compute; reflexivity |].
  split; [reflexivity |]. cbn. lia.
Qed.

(** ** ReferenceDataResolver: teacher name to id *)

(** [strings.Split] cuts at the first separator: what precedes it is the
    first piece, and the rest is split in turn. *)
Lemma splitFrom_cut (sep : ascii) (a b : string) :
  forall cur,
    noByte sep a = true ->
    strings.splitFrom sep (a +:+ String sep b) cur
    = (cur +:+ a) :: strings.splitFrom sep b "".
Proof.
  induction a as [|c a IH]; intros cur Hno.
  - cbn [String.append strings.splitFrom]. rewrite append_nil_r.
    change ("" +:+ String sep b) with (String sep b). cbn [strings.splitFrom].
    rewrite Ascii.eqb_refl. reflexivity.
  - cbn [noByte] in Hno. apply andb_true_iff in Hno as [Hc Hno].
    rewrite append_cons. cbn [strings.splitFrom].
    apply negb_true_iff in Hc. rewrite Hc.
    rewrite IH by exact Hno. rewrite append_assoc. reflexivity.
Qed.

Lemma Split_cut (sep : ascii) (a b : string) :
  noByte sep a = true ->
  strings.Split (a +:+ String sep b) sep = a :: strings.Split b sep.
Proof. intros Hno. unfold strings.Split. rewrite splitFrom_cut by exact Hno. reflexivity. Qed.

Section TeacherID.
Context `{GoLib}.

Lemma teacherMatches_eqb (forename second : string) (res : Teacher) :
  String.eqb forename (te_ForeName res)
  && String.eqb (ToUpper second) (hd "" (strings.Split (te_LongName res) " ")) = true
  <-> teacherMatches forename second res.
Proof.
  unfold teacherMatches. rewrite andb_true_iff, !String.eqb_eq. reflexivity.
Qed.

(** The scan returns the id of the first matching record, or "teacher not
    found" when none matches. *)
Lemma findTeacher_first_match (forename second : string) (listing : list Teacher) :
  (exists i res,
      listing !! i = Some res /\
      teacherMatches forename second res /\
      (forall j res', (j < i)%nat -> listing !! j = Some res' ->
                      ~ teacherMatches forename second res') /\
      findTeacher forename (ToUpper second) listing = (te_ID res, None)) \/
  ((forall res, In res listing -> ~ teacherMatches forename second res) /\
   findTeacher forename (ToUpper second) listing = (-1, Some "teacher not found")).
Proof.
  induction listing as [|res rest IH]; cbn [findTeacher].
  - right. split; [intros res [] | reflexivity].
  - destruct (String.eqb forename (te_ForeName res)
              && String.eqb (ToUpper second)
                            (hd "" (strings.Split (te_LongName res) " "))) eqn:Hm.
    + left. exists 0%nat, res. apply teacherMatches_eqb in Hm.
      repeat split; try assumption; try reflexivity; try apply Hm.
      intros j res' Hj. lia.
    + assert (Hno : ~ teacherMatches forename second res).
      { intros Hyes. apply teacherMatches_eqb in Hyes. congruence. }
      destruct IH as [(i & res1 & Hi & Hyes & Hfirst & Hfind) | (Hnone & Hfind)].
      * left. exists (S i), res1. repeat split; try assumption; try apply Hyes.
        intros [|j] res' Hj Hres'.
        -- cbn in Hres'. injection Hres' as <-. exact Hno.
        -- cbn in Hres'. apply (Hfirst j res'); [lia | exact Hres'].
      * right. split; [| exact Hfind].
        intros res' [<- | Hin]; [exact Hno | apply Hnone; exact Hin].
Qed.

Lemma ResolveTeacherID_correlated (env : Env) (client : Client) (w : World)
      (teacher forename second : string) (more : list string)
      (listing : list Teacher) :
  Authenticated client = true ->
  correlated asTeachers env w (requestOf env w client "getTeachers" ∅) listing ->
  strings.Split teacher " " = forename :: second :: more ->
  ResolveTeacherID env client teacher w
  = (Return (findTeacher forename (ToUpper second) listing),
     afterSend w (requestOf env w client "getTeachers" ∅)).
Proof.
  intros Ha (resp & body & r & HDo & HRead & HJson & Hid & Hres) Hsplit.
  unfold ResolveTeacherID. run_request Ha HDo HRead HJson Hid.
  rewrite Hsplit, Hres. reflexivity.
Qed.

(** A display name without a space makes the index [split[1]] panic. *)
Lemma ResolveTeacherID_one_word (env : Env) (client : Client) (w : World)
      (teacher forename : string) (listing : list Teacher) :
  Authenticated client = true ->
  correlated asTeachers env w (requestOf env w client "getTeachers" ∅) listing ->
  strings.Split teacher " " = [forename] ->
  ResolveTeacherID env client teacher w
  = (Panic "index out of range [1] with length 1",
     afterSend w (requestOf env w client "getTeachers" ∅)).
Proof.
  intros Ha (resp & body & r & HDo & HRead & HJson & Hid & Hres) Hsplit.
  unfold ResolveTeacherID. run_request Ha HDo HRead HJson Hid.
  rewrite Hsplit. reflexivity.
Qed.

(** C5 (amended). On an authenticated client and a correlated listing,
    [ResolveTeacherID] cuts the display name at every space, takes the first
    piece as forename and upper-cases the second piece; it returns the id of
    the first listing record whose given name equals the forename and whose
    long name, up to its first space and as stored (not upper-cased), equals
    the upper-cased second piece; when no record matches it fails with
    "teacher not found". *)
Theorem ResolveTeacherID_first_match (env : Env) (client : Client) (w : World)
        (teacher forename second : string) (more : list string)
        (listing : list Teacher) :
  Authenticated client = true ->
  correlated asTeachers env w (requestOf env w client "getTeachers" ∅) listing ->
  strings.Split teacher " " = forename :: second :: more ->
  exists result,
    ResolveTeacherID env client teacher w
    = (Return result, afterSend w (requestOf env w client "getTeachers" ∅)) /\
    ((exists i res,
         listing !! i = Some res /\
         teacherMatches forename second res /\
         (forall j res', (j < i)%nat -> listing !! j = Some res' ->
                         ~ teacherMatches forename second res') /\
         result = (te_ID res, None)) \/
     ((forall res, In res listing -> ~ teacherMatches forename second res) /\
      result = (-1, Some "teacher not found"))).
Proof.
  intros Ha Hcorr Hsplit.
  exists (findTeacher forename (ToUpper second) listing).
  split; [apply (ResolveTeacherID_correlated _ _ _ _ _ _ more); assumption |].
  apply findTeacher_first_match.
Qed.

End TeacherID.

Lemma ResolveTeacherID_first_match_witness :
  exists result,
    ResolveTeacherID (service smiths [] [] []) jdoe "John SMITH" emptyWorld
    = (Return result,
       afterSend emptyWorld
                 (requestOf (service smiths [] [] []) emptyWorld jdoe "getTeachers" ∅)) /\
    ((exists i res,
         smiths !! i = Some res /\
         teacherMatches "John" "SMITH" res /\
         (forall j res', (j < i)%nat -> smiths !! j = Some res' ->
                         ~ teacherMatches "John" "SMITH" res') /\
         result = (te_ID res, None)) \/
     ((forall res, In res smiths -> ~ teacherMatches "John" "SMITH" res) /\
      result = (-1, Some "teacher not found"))).
Proof.
  apply (ResolveTeacherID_first_match (service smiths [] [] []) jdoe emptyWorld
           "John SMITH" "John" "SMITH" []).
  - reflexivity.
  - apply service_correlated; [cbn; lia | reflexivity].
  - reflexivity.
Defined.

(** The scenario of the specification: "John SMITH" finds the record
    ["John", "SMITH Jonathan"]; a forename no record carries finds nothing. *)
Example resolveTeacherId_scenario :
  fst (ResolveTeacherID (service smiths [] [] []) jdoe "John SMITH" emptyWorld)
  = Return (7, None) /\
  fst (ResolveTeacherID (service smiths [] [] []) jdoe "Johann SMITH" emptyWorld)
  = Return (-1, Some "teacher not found").
Proof. split; vm_compute; reflexivity. Qed.

(** C5, as first stated, fails: the record's long-name piece is compared as
    stored.  The record ["John", "Smith Jonathan"] has the forename asked for
    and a first long-name piece that upper-cases to "SMITH", yet "John SMITH"
    is not found. *)
Lemma stored_surname_is_not_uppercased :
  let listing := [mkTeacher 7 "SMI" "John" "Smith Jonathan" "" ""] in
  (exists res,
      In res listing /\ te_ID res = 7 /\
      matchesAsStated "John" "SMITH" res) /\
  fst (ResolveTeacherID (service listing [] [] []) jdoe "John SMITH" emptyWorld)
  = Return (-1, Some "teacher not found").
Proof.
  split.
  - eexists. split; [left; reflexivity |]. repeat split.
  - vm_compute. reflexivity.
Qed.

(** ** TimetableRetrieval: failures *)

Section Retrieval.
Context `{GoLib} (env : Env).

(** The record loop never returns lessons together with an error. *)
Lemma lessonsOf_no_partial_result (client : Client) (result : list Period) :
  forall lessons w out err w',
    lessonsOf env client result lessons w = (Return (out, Some err), w') ->
    out = [].
Proof.
  induction result as [|l rest IH]; intros lessons w out err w' Hrun.
  - cbn in Hrun. unfold ret in Hrun. congruence.
  - cbn [lessonsOf] in Hrun.
    destruct (slice (strconv.Itoa (pe_Date l)) 0 4); [| discriminate].
    destruct (slice (strconv.Itoa (pe_Date l)) 4 6); [| discriminate].
    destruct (slice (strconv.Itoa (pe_Date l)) 6 8); [| discriminate].
    destruct (clock (pe_StartTime l)) as [[startHour startMinute]|]; [| discriminate].
    destruct (clock (pe_EndTime l)) as [[endHour endMinute]|]; [| discriminate].
    unfold bind at 1 in Hrun.
    destruct (ResolveClasses env client _ w) as [[[classes [e1|]]|msg] w1];
      cbn [snd fst] in Hrun;
      [unfold ret in Hrun; congruence | | discriminate].
    unfold bind at 1 in Hrun.
    destruct (ResolveTeachers env client _ w1) as [[[teachers [e2|]]|msg] w2];
      cbn [snd fst] in Hrun;
      [unfold ret in Hrun; congruence | | discriminate].
    unfold bind at 1 in Hrun.
    destruct (ResolveRooms env client _ w2) as [[[rooms [e3|]]|msg] w3];
      cbn [snd fst] in Hrun;
      [unfold ret in Hrun; congruence | | discriminate].
    eapply IH. exact Hrun.
Qed.

Lemma getTimetable_no_partial_result (client : Client) (params : gmap string Param)
      (w : World) (out : list Lesson) (err : error) (w' : World) :
  getTimetable env client params w = (Return (out, Some err), w') -> out = [].
Proof.
  unfold getTimetable, bind. rewrite sendRequest_run. cbn [fst snd].
  destruct (Do env (wire w) _) as [e|resp]; [unfold ret; congruence |].
  destruct (ReadAll resp) as [e|body]; [unfold ret; congruence |].
  destruct (asTimetable body) as [e|r]; [unfold ret; congruence |].
  destruct (_ =? _); [apply lessonsOf_no_partial_result | unfold ret; congruence].
Qed.

(** Whenever one of the three retrievals returns an error, it returns no
    lessons with it. *)
Lemma retrievals_no_partial_result (client : Client) (start end_ : Time)
      (name : string) (w : World) (out : list Lesson) (err : error) (w' : World) :
  (GetTimetableOfTeacher env client start end_ w = (Return (out, Some err), w') ->
   out = []) /\
  (GetTimetableOfClass env client start end_ name w = (Return (out, Some err), w') ->
   out = []) /\
  (GetTimetableOfSpecificTeacher env client start end_ name w
   = (Return (out, Some err), w') ->
   out = []).
Proof.
  unfold GetTimetableOfTeacher, GetTimetableOfClass, GetTimetableOfSpecificTeacher.
  destruct (Authenticated client); cbn [negb];
    [| repeat split; unfold ret; congruence].
  repeat split.
  - apply getTimetable_no_partial_result.
  - unfold bind.
    destruct (ResolveClassID env client name w) as [[resolved|msg] w1];
      [apply getTimetable_no_partial_result | discriminate].
  - unfold bind.
    destruct (ResolveTeacherID env client name w) as [[[id [e|]]|msg] w1];
      [unfold ret; cbn; congruence | apply getTimetable_no_partial_result | discriminate].
Qed.

(** By teacher name: a failed name resolution ends the retrieval with that
    error, before any timetable request. *)
Lemma GetTimetableOfSpecificTeacher_unresolved (client : Client) (start end_ : Time)
      (teacher : string) (w w1 : World) (id : Z) (err : error) :
  Authenticated client = true ->
  ResolveTeacherID env client teacher w = (Return (id, Some err), w1) ->
  GetTimetableOfSpecificTeacher env client start end_ teacher w
  = (Return ([], Some err), w1).
Proof.
  intros Ha Hres. unfold GetTimetableOfSpecificTeacher.
  rewrite Ha. cbn [negb]. unfold bind. rewrite Hres. reflexivity.
Qed.

(** By class name: a failed name resolution is dropped, and the timetable
    request goes out with whatever id came back with the error. *)
Lemma GetTimetableOfClass_unresolved (client : Client) (start end_ : Time)
      (class : string) (w w1 : World) (id : Z) (err : error) :
  Authenticated client = true ->
  ResolveClassID env client class w = (Return (id, Some err), w1) ->
  GetTimetableOfClass env client start end_ class w
  = getTimetable env client
                 {[ "id" := PInt id;
                    "type" := PInt 1;
                    "startDate" := PString (dateParam start);
                    "endDate" := PString (dateParam end_) ]}
                 w1.
Proof.
  intros Ha Hres. unfold GetTimetableOfClass.
  rewrite Ha. cbn [negb]. unfold bind. rewrite Hres. reflexivity.
Qed.

End Retrieval.

(** C4 at its failing input.  The class "9Z" is not in the class listing, so
    [ResolveClassID] fails with "class not found"; [GetTimetableOfClass] goes
    on all the same, asks for the timetable of id -1 and returns without
    error. *)
Theorem class_timetable_drops_resolver_error :
  let env := service [] [] fifthForm [] in
  fst (ResolveClassID env jdoe "9Z" emptyWorld) = Return (-1, Some "class not found") /\
  fst (GetTimetableOfClass env jdoe monday friday "9Z" emptyWorld) = Return ([], None) /\
  map (fun req => (rq_method req, rq_params req !! "id", rq_params req !! "type"))
      (wire (snd (GetTimetableOfClass env jdoe monday friday "9Z" emptyWorld)))
  = [ ("getKlassen", None, None);
      ("getTimetable", Some (PInt (-1)), Some (PInt 1)) ].
Proof. repeat split; vm_compute; reflexivity. Qed.

(** The sibling retrieval by teacher name stops at the same point. *)
Example teacher_timetable_keeps_resolver_error :
  let env := service smiths [] fifthForm [] in
  fst (GetTimetableOfSpecificTeacher env jdoe monday friday "Johann SMITH" emptyWorld)
  = Return ([], Some "teacher not found") /\
  map rq_method
      (wire (snd (GetTimetableOfSpecificTeacher env jdoe monday friday "Johann SMITH"
                                                emptyWorld)))
  = ["getTeachers"].
Proof. repeat split; vm_compute; reflexivity. Qed.

(** The scenario of the specification: one raw record on 2024-03-11 from 800
    to 850 with class 1, teacher 7 and room 3. *)
Example timetable_scenario :
  let env := service [mkTeacher 7 "Smith" "" "" "" ""] [mkRoom 3 "E12" "" "" ""]
                     fifthForm
                     [mkPeriod 1 20240311 800 850 [mkRef 1] [mkRef 7] [] [mkRef 3]] in
  fst (GetTimetableOfTeacher env jdoe monday friday emptyWorld)
  = Return ([ {| Start := mkCivil 2024 3 11 8 0;
                 End_ := mkCivil 2024 3 11 8 50;
                 ClassIDs := [1]; Classes := ["5AHIF"];
                 TeacherIDs := [7]; Teachers := ["Smith"];
                 RoomIDs := [3]; Rooms := ["E12"] |} ], None).
Proof. vm_compute. reflexivity. Qed.

(** * Further properties *)

(** ** ClientRegistry: lookups, replacement, removal *)

Lemma registered_GetClient (username : string) (w : World) :
  GetClient username w
  = (Return (length (heap w)), withHeap w (heap w ++ [registered w username])).
Proof. apply GetClient_effect. Qed.

(** X1. [GetClient] never fails and never hands out nil: for a username that
    is not registered (or while the registry is still the nil map) it
    returns a pointer to a new cell holding the zero [Client], and the
    registry is left as it was (the name is not registered by the lookup). *)
Theorem GetClient_unknown_is_zero (username : string) (w : World) :
  (activeClients w = None \/
   exists m, activeClients w = Some m /\ m !! username = None) ->
  exists q w',
    GetClient username w = (Return q, w') /\
    heap w !! q = None /\
    heap w' !! q = Some zeroClient /\
    activeClients w' = activeClients w /\
    wire w' = wire w.
Proof.
  intros Hunknown. rewrite registered_GetClient.
  exists (length (heap w)), (withHeap w (heap w ++ [registered w username])).
  split; [reflexivity |].
  split; [apply lookup_ge_None; lia |].
  split; [| split; reflexivity].
  cbn [heap withHeap].
  assert (Hz : registered w username = zeroClient).
  { unfold registered. destruct Hunknown as [-> | (m & -> & Hm)]; cbn; [reflexivity |].
    rewrite Hm. reflexivity. }
  rewrite Hz. apply list_lookup_middle. reflexivity.
Qed.

Lemma GetClient_unknown_is_zero_witness :
  exists q w',
    GetClient "nobody" emptyWorld = (Return q, w') /\
    heap emptyWorld !! q = None /\
    heap w' !! q = Some zeroClient /\
    activeClients w' = activeClients emptyWorld /\
    wire w' = wire emptyWorld.
Proof.
  apply (GetClient_unknown_is_zero "nobody" emptyWorld). left. reflexivity.
Defined.

(** X2. [CreateClient] replaces whatever was registered under the username
    and touches no other entry: afterwards the entry for [username] is the
    new unauthenticated record (so is what [GetClient] copies), and the
    entry for every other name is what it was. *)
Theorem CreateClient_then_lookup (username password other : string) (w : World) :
  exists p w1,
    CreateClient username password w = (Return p, w1) /\
    registered w1 username = freshClient username password /\
    (other <> username -> registered w1 other = registered w other) /\
    exists q w2,
      GetClient other w1 = (Return q, w2) /\ q <> p /\
      heap w2 !! q
      = Some (if decide (other = username) then freshClient username password
              else registered w other).
Proof.
  set (m := default ∅ (activeClients w)).
  set (w1 := mkWorld (heap w ++ [freshClient username password])
                     (Some (<[username := freshClient username password]> m))
                     (drawn w) (wire w)).
  assert (HC : CreateClient username password w = (Return (length (heap w)), w1)).
  { unfold CreateClient, alloc, w1, m. cbn.
    destruct (activeClients w); reflexivity. }
  exists (length (heap w)), w1. split; [exact HC |].
  assert (Hsame : registered w1 username = freshClient username password).
  { unfold registered. subst w1. cbn. rewrite lookup_insert_eq. reflexivity. }
  assert (Hother : other <> username -> registered w1 other = registered w other).
  { intros Hne. unfold registered. subst w1. cbn.
    rewrite lookup_insert_ne by congruence. subst m.
    destruct (activeClients w); cbn; [reflexivity |].
    rewrite lookup_empty. reflexivity. }
  split; [exact Hsame |]. split; [exact Hother |].
  rewrite registered_GetClient. eexists _, _. split; [reflexivity |].
  split.
  - subst w1. cbn [heap]. rewrite length_app. cbn. lia.
  - cbn [heap withHeap].
    destruct (decide (other = username)) as [-> | Hne].
    + rewrite Hsame. apply list_lookup_middle. reflexivity.
    + rewrite (Hother Hne). apply list_lookup_middle. reflexivity.
Qed.

(** X3. [DeleteClient] removes exactly the entry named by the receiver's
    [Username]: afterwards that name looks up as the zero [Client], every
    other name as before; on the nil registry it does nothing (no panic, the
    map stays nil); and it leaves every client cell alone, so handles handed
    out earlier keep their state. *)
Theorem DeleteClient_removes_entry (client : Client) (other : string) (w : World) :
  exists w1,
    DeleteClient client w = (Return tt, w1) /\
    registered w1 (Username client) = zeroClient /\
    (other <> Username client -> registered w1 other = registered w other) /\
    (activeClients w = None -> activeClients w1 = None) /\
    heap w1 = heap w /\ wire w1 = wire w.
Proof.
  unfold DeleteClient. eexists. split; [reflexivity |].
  unfold registered. cbn.
  destruct (activeClients w) as [m|]; cbn.
  - rewrite lookup_delete_eq.
    repeat split; try reflexivity; try discriminate.
    intros Hne. rewrite lookup_delete_ne by congruence. reflexivity.
  - repeat split; reflexivity.
Qed.

(** ** Session: the handshake *)

Lemma Authenticate_run (env : Env) (p : loc) (w : World) (c : Client) :
  heap w !! p = Some c ->
  Authenticated c = false ->
  Authenticate env p w = handshake env p w c.
Proof.
  intros Hp Ha.
  unfold Authenticate, handshake, load, bind, randIntn, roundTrip, store, ret, panic.
  cbv beta. rewrite !Hp. cbv beta iota. rewrite !Ha. cbv beta iota.
  unfold loginRequest, afterSend, withHeap. cbn [heap activeClients wire drawn rq_id].
  destruct (Do env (wire w) _) as [err|resp]; [reflexivity |].
  destruct (ReadAll resp) as [err|body]; [reflexivity |].
  destruct (asSession body) as [err|r]; [reflexivity |].
  destruct (String.eqb (r_ID r) _); [| reflexivity].
  destruct (r_Result r !! "sessionId") as [[s|n|]|]; try reflexivity.
  cbn [heap activeClients wire drawn]. rewrite !Hp. reflexivity.
Qed.

(** X4. A successful handshake.  On a client that is not authenticated
    (fresh, or closed before), when the service answers the login request
    under exactly the decimal form of the request id and with a string
    [sessionId], [Authenticate] returns nil, and the client's cell then holds
    the token, the person type and id of the answer (0 where the answer has
    no number), [Authenticated = true] and [Closed = false]; one request was
    sent, without cookie, carrying user, password and client name. *)
Theorem Authenticate_success (env : Env) (p : loc) (w : World) (c : Client)
        (resp : Response) (body : Body) (r : Rpc (gmap string JValue)) (s : string) :
  heap w !! p = Some c ->
  Authenticated c = false ->
  Do env (wire w) (loginRequest env w c) = inr resp ->
  ReadAll resp = inr body ->
  asSession body = inr r ->
  r_ID r = strconv.Itoa (Intn env (drawn w)) ->
  r_Result r !! "sessionId" = Some (JString s) ->
  exists w',
    Authenticate env p w = (Return None, w') /\
    heap w' !! p
    = Some (mkClient (Username c) (Password c) s
                     (floatField (r_Result r) "personType")
                     (floatField (r_Result r) "personId") false true) /\
    wire w' = (wire w ++ [loginRequest env w c])%list /\
    rq_cookie (loginRequest env w c) = None /\
    rq_params (loginRequest env w c) !! "user" = Some (PString (Username c)) /\
    rq_params (loginRequest env w c) !! "password" = Some (PString (Password c)) /\
    rq_params (loginRequest env w c) !! "client" = Some (PString "Refundable").
Proof.
  intros Hp Ha HDo HRead HJson Hid HSid.
  rewrite (Authenticate_run env p w c Hp Ha). unfold handshake.
  rewrite HDo, HRead, HJson, Hid. cbn [rq_id loginRequest].
  rewrite String.eqb_refl, HSid.
  eexists. split; [reflexivity |].
  split; [cbn [heap withHeap]; apply (heap_update_lookup _ _ _ _ Hp) |].
  split; [reflexivity |]. split; [reflexivity |].
  unfold loginRequest. cbn [rq_params].
  split; [| split].
  - rewrite lookup_insert_eq. reflexivity.
  - rewrite lookup_insert_ne by discriminate. rewrite lookup_insert_eq. reflexivity.
  - rewrite lookup_insert_ne by discriminate.
    rewrite lookup_insert_ne by discriminate.
    rewrite lookup_singleton_eq. reflexivity.
Qed.

Lemma Authenticate_success_witness :
  exists w',
    Authenticate (service [] [] [] []) 0%nat (mkWorld [closedOf jdoe] None 0 [])
    = (Return None, w') /\
    heap w' !! 0%nat = Some (mkClient "jdoe" "secret" "ABC123" 2 5 false true).
Proof.
  destruct (Authenticate_success (service [] [] [] []) 0%nat
              (mkWorld [closedOf jdoe] None 0 []) (closedOf jdoe)
              _ _ _ "ABC123" eq_refl eq_refl eq_refl eq_refl eq_refl eq_refl eq_refl)
    as (w' & Hrun & Hcell & _).
  exists w'. split; [exact Hrun | exact Hcell].
Defined.

(** X5. [Authenticate] writes the client only when it returns nil.  On a
    client that is not authenticated it sends exactly one request; if it
    returns an error (transport, read, decode, "IDs not matching") or
    panics, every client cell is as before; if it returns nil, exactly the
    client's own cell was overwritten, with an authenticated record. *)
Theorem Authenticate_all_or_nothing (env : Env) (p : loc) (w : World) (c : Client) :
  heap w !! p = Some c ->
  Authenticated c = false ->
  wire (snd (Authenticate env p w)) = (wire w ++ [loginRequest env w c])%list /\
  (fst (Authenticate env p w) <> Return None ->
   heap (snd (Authenticate env p w)) = heap w) /\
  (fst (Authenticate env p w) = Return None ->
   exists s pt pid,
     heap (snd (Authenticate env p w)) = <[p := authenticatedOf c s pt pid]> (heap w)).
Proof.
  intros Hp Ha. rewrite (Authenticate_run env p w c Hp Ha). unfold handshake.
  assert (Hfail : forall (out : Exit (option error)),
             out <> Return None ->
             wire (snd (out, afterSend w (loginRequest env w c)))
             = (wire w ++ [loginRequest env w c])%list /\
             (fst (out, afterSend w (loginRequest env w c)) <> Return None ->
              heap (snd (out, afterSend w (loginRequest env w c))) = heap w) /\
             (fst (out, afterSend w (loginRequest env w c)) = Return None ->
              exists s pt pid,
                heap (snd (out, afterSend w (loginRequest env w c)))
                = <[p := authenticatedOf c s pt pid]> (heap w))).
  { intros out Hout. cbn. split; [reflexivity |].
    split; [reflexivity | intros Heq; contradiction]. }
  destruct (Do env (wire w) _) as [err|resp]; [apply Hfail; discriminate |].
  destruct (ReadAll resp) as [err|body]; [apply Hfail; discriminate |].
  destruct (asSession body) as [err|r]; [apply Hfail; discriminate |].
  destruct (String.eqb (r_ID r) _); [| apply Hfail; discriminate].
  destruct (r_Result r !! "sessionId") as [[s|n|]|];
    try (apply Hfail; discriminate).
  cbn. split; [reflexivity |].
  split; [intros Hno; exfalso; apply Hno; reflexivity | intros _; eauto].
Qed.

Lemma Authenticate_all_or_nothing_witness :
  fst (Authenticate (spelling (fun n => "+" +:+ strconv.Itoa n) []) 0%nat
                    (mkWorld [guest] None 0 []))
  = Return (Some "IDs not matching") /\
  heap (snd (Authenticate (spelling (fun n => "+" +:+ strconv.Itoa n) []) 0%nat
                          (mkWorld [guest] None 0 []))) = [guest].
Proof.
  destruct (Authenticate_all_or_nothing (spelling (fun n => "+" +:+ strconv.Itoa n) [])
              0%nat (mkWorld [guest] None 0 []) guest eq_refl eq_refl)
    as (_ & Hkeep & _).
  split; [vm_compute; reflexivity |].
  apply Hkeep. vm_compute. discriminate.
Defined.

(** X6. A correlated answer without a string [sessionId] (absent, a number,
    anything else) makes [Authenticate] panic on the type assertion - it does
    not return an error - and the client stays as it was. *)
Theorem Authenticate_panics_without_token (env : Env) (p : loc) (w : World) (c : Client)
        (resp : Response) (body : Body) (r : Rpc (gmap string JValue)) :
  heap w !! p = Some c ->
  Authenticated c = false ->
  Do env (wire w) (loginRequest env w c) = inr resp ->
  ReadAll resp = inr body ->
  asSession body = inr r ->
  r_ID r = strconv.Itoa (Intn env (drawn w)) ->
  (forall s, r_Result r !! "sessionId" <> Some (JString s)) ->
  Authenticate env p w
  = (Panic "interface conversion: interface {} is not string",
     afterSend w (loginRequest env w c)) /\
  heap (afterSend w (loginRequest env w c)) !! p = Some c.
Proof.
  intros Hp Ha HDo HRead HJson Hid HSid.
  rewrite (Authenticate_run env p w c Hp Ha). unfold handshake.
  rewrite HDo, HRead, HJson, Hid. cbn [rq_id loginRequest].
  rewrite String.eqb_refl.
  split; [| exact Hp].
  destruct (r_Result r !! "sessionId") as [[s|n|]|] eqn:E; try reflexivity.
  exfalso. exact (HSid s eq_refl).
Qed.

Lemma Authenticate_panics_without_token_witness :
  fst (Authenticate tokenless 0%nat (mkWorld [guest] None 0 []))
  = Panic "interface conversion: interface {} is not string" /\
  heap (snd (Authenticate tokenless 0%nat (mkWorld [guest] None 0 []))) !! 0%nat
  = Some guest.
Proof.
  destruct (Authenticate_panics_without_token tokenless 0%nat (mkWorld [guest] None 0 [])
              guest _ _ _ eq_refl eq_refl eq_refl eq_refl eq_refl eq_refl)
    as (Hrun & Hcell).
  - intros s. vm_compute. discriminate.
  - rewrite Hrun. split; [reflexivity | exact Hcell].
Defined.

(** ** Session: locality, and closing twice *)

Lemma runOp_dangling (env : Env) (p : loc) (op : SessionOp) (w : World) :
  heap w !! p = None -> snd (runOp env p op w) = w.
Proof.
  intros Hp. destruct op; cbn [runOp];
    unfold Authenticate, Close, load, bind; cbv beta; rewrite Hp; reflexivity.
Qed.

Lemma runOp_local (env : Env) (p q : loc) (op : SessionOp) (w : World) :
  q <> p ->
  heap (snd (runOp env p op w)) !! q = heap w !! q /\
  activeClients (snd (runOp env p op w)) = activeClients w.
Proof.
  intros Hne. destruct (heap w !! p) as [c|] eqn:Hp.
  - destruct op; cbn [runOp].
    + destruct (Authenticate_effect env p w c Hp) as (Hreg & [-> | Hnew]);
        [auto |].
      destruct Hnew as (? & ? & ? & ? & ? & s & pt & pid & _ & _ & _ & _ & ->).
      split; [apply list_lookup_insert_ne; congruence | exact Hreg].
    + destruct (Close_effect env p w c Hp) as (Hreg & [-> | (_ & ->)]);
        [auto |].
      split; [apply list_lookup_insert_ne; congruence | exact Hreg].
  - rewrite (runOp_dangling env p op w Hp). auto.
Qed.

(** X7. [Authenticate] and [Close] act on the one cell their receiver points
    to: whatever sequence of them runs through a pointer [p], every other
    client cell - another user's session, or a second handle for the same
    username obtained from [GetClient] - and the registry stay as they
    were. *)
Theorem session_calls_are_local (env : Env) (p q : loc) (ops : list SessionOp) :
  q <> p ->
  forall w,
    heap (runOps env p ops w) !! q = heap w !! q /\
    activeClients (runOps env p ops w) = activeClients w.
Proof.
  intros Hne. induction ops as [|op rest IH]; intros w; cbn [runOps].
  - auto.
  - destruct (IH (snd (runOp env p op w))) as (Hcell & Hreg).
    destruct (runOp_local env p q op w Hne) as (Hcell1 & Hreg1).
    split; congruence.
Qed.

Lemma session_calls_are_local_witness :
  heap (runOps (service [] [] [] []) 0%nat [OpAuthenticate; OpClose]
               (mkWorld [guest; guest] None 0 [])) !! 1%nat = Some guest /\
  heap (runOps (service [] [] [] []) 0%nat [OpAuthenticate; OpClose]
               (mkWorld [guest; guest] None 0 [])) !! 0%nat
  = Some (mkClient "guest" "guest" "ABC123" 2 5 true false).
Proof.
  split.
  - apply (session_calls_are_local (service [] [] [] []) 0%nat 1%nat
             [OpAuthenticate; OpClose] ltac:(lia) (mkWorld [guest; guest] None 0 [])).
  - vm_compute. reflexivity.
Defined.

(** X8. Closing twice: after a [Close] on an authenticated client, a second
    [Close] through the same pointer fails with "not authenticated" and
    sends nothing; over the two calls exactly one logout request went out,
    carrying the session token as cookie. *)
Theorem Close_twice (env : Env) (p : loc) (w : World) (c : Client) :
  heap w !! p = Some c ->
  Authenticated c = true ->
  Close env p (snd (Close env p w))
  = (Return (Some "not authenticated"), snd (Close env p w)) /\
  exists req,
    wire (snd (Close env p w)) = (wire w ++ [req])%list /\
    rq_method req = "logout" /\
    rq_cookie req = Some (SessionID c).
Proof.
  intros Hp Ha. rewrite (Close_run env p w c Hp Ha). cbn [snd]. split.
  - unfold Close at 1, load, bind. cbv beta. cbn [heap afterSend withHeap].
    rewrite (heap_update_lookup _ _ _ _ Hp). reflexivity.
  - eexists. split; [reflexivity |]. split; reflexivity.
Qed.

Lemma Close_twice_witness :
  Close (service [] [] [] []) 0%nat
        (snd (Close (service [] [] [] []) 0%nat (mkWorld [jdoe] None 0 [])))
  = (Return (Some "not authenticated"),
     snd (Close (service [] [] [] []) 0%nat (mkWorld [jdoe] None 0 []))).
Proof.
  apply (Close_twice (service [] [] [] []) 0%nat (mkWorld [jdoe] None 0 []) jdoe);
    reflexivity.
Defined.

(** ** Correlation: how the response id is compared *)

Lemma ResolveClassID_correlated (env : Env) (client : Client) (class : string)
      (w : World) (listing : list Klasse) :
  Authenticated client = true ->
  correlated asKlassen env w (requestOf env w client "getKlassen" ∅) listing ->
  ResolveClassID env client class w
  = (Return (findClass class listing),
     afterSend w (requestOf env w client "getKlassen" ∅)).
Proof.
  intros Ha (resp & body & r & HDo & HRead & HJson & Hid & Hres).
  unfold ResolveClassID. run_request Ha HDo HRead HJson Hid.
  rewrite Hres. reflexivity.
Qed.

(** X9. The resolvers compare the response id as a number, [Authenticate]
    compares it as text.  A response id that [strconv.Atoi] reads as the
    request id but that is not its plain decimal form (a leading "+", or
    leading zeros) is accepted by [ResolveClassID] and rejected by
    [Authenticate] with "IDs not matching". *)
Theorem response_id_number_or_text (env : Env) (w : World) (text : string) :
  fst (strconv.Atoi text) = Intn env (drawn w) ->
  text <> strconv.Itoa (Intn env (drawn w)) ->
  (forall client class resp body r,
      Authenticated client = true ->
      Do env (wire w) (requestOf env w client "getKlassen" ∅) = inr resp ->
      ReadAll resp = inr body ->
      asKlassen body = inr r ->
      r_ID r = text ->
      ResolveClassID env client class w
      = (Return (findClass class (r_Result r)),
         afterSend w (requestOf env w client "getKlassen" ∅))) /\
  (forall p c resp body r,
      heap w !! p = Some c ->
      Authenticated c = false ->
      Do env (wire w) (loginRequest env w c) = inr resp ->
      ReadAll resp = inr body ->
      asSession body = inr r ->
      r_ID r = text ->
      Authenticate env p w
      = (Return (Some "IDs not matching"), afterSend w (loginRequest env w c))).
Proof.
  intros Hnum Htext. split.
  - intros client class resp body r Ha HDo HRead HJson Hid.
    apply ResolveClassID_correlated; [exact Ha |].
    exists resp, body, r. subst text. auto.
  - intros p c resp body r Hp Ha HDo HRead HJson Hid.
    rewrite (Authenticate_run env p w c Hp Ha). unfold handshake.
    rewrite HDo, HRead, HJson, Hid. cbn [rq_id loginRequest].
    apply String.eqb_neq in Htext. rewrite Htext. reflexivity.
Qed.

Lemma response_id_number_or_text_witness :
  let env := spelling (fun n => "+" +:+ strconv.Itoa n) fifthForm in
  ResolveClassID env jdoe "5AHIF" emptyWorld
  = (Return (1, None), afterSend emptyWorld (requestOf env emptyWorld jdoe "getKlassen" ∅)) /\
  Authenticate env 0%nat (mkWorld [guest] None 0 [])
  = (Return (Some "IDs not matching"),
     afterSend (mkWorld [guest] None 0 [])
               (loginRequest env (mkWorld [guest] None 0 []) guest)).
Proof.
  intros env. split.
  - destruct (response_id_number_or_text env emptyWorld "+1000") as (Hnum & _);
      [reflexivity | discriminate |].
    apply (Hnum jdoe "5AHIF" _ _ _ eq_refl eq_refl eq_refl eq_refl eq_refl).
  - destruct (response_id_number_or_text env (mkWorld [guest] None 0 []) "+1000")
      as (_ & Htext); [reflexivity | discriminate |].
    apply (Htext 0%nat guest _ _ _ eq_refl eq_refl eq_refl eq_refl eq_refl eq_refl).
Defined.

Lemma Atoi_syntax_error_reads_zero (s : string) :
  snd (strconv.Atoi s) = Some "invalid syntax" -> fst (strconv.Atoi s) = 0.
Proof.
  unfold strconv.Atoi.
  destruct (match s with
            | String "-" rest => (true, rest)
            | String "+" rest => (false, rest)
            | _ => (false, s)
            end) as [neg body].
  destruct body as [|c rest]; [reflexivity |].
  destruct (strconv.parseDigits (String c rest) 0) as [un|]; [| reflexivity].
  destruct neg.
  - destruct (2 ^ 63 <? un); cbn; intros Hmsg; [discriminate | discriminate].
  - destruct (2 ^ 63 <=? un); cbn; intros Hmsg; [discriminate | discriminate].
Qed.

(** X10. A response id that is not a number at all (empty, "null", any text
    [strconv.Atoi] rejects) reads as 0, because the conversion error is
    dropped: the resolvers take such a response as correlated exactly when
    the request id drawn was 0, and answer "ids not matching" otherwise. *)
Theorem unreadable_response_id (env : Env) (client : Client) (w : World)
        (resp : Response) (body : Body) :
  Authenticated client = true ->
  ReadAll resp = inr body ->
  (forall class r,
      Do env (wire w) (requestOf env w client "getKlassen" ∅) = inr resp ->
      asKlassen body = inr r ->
      snd (strconv.Atoi (r_ID r)) = Some "invalid syntax" ->
      ResolveClassID env client class w
      = (Return (if Intn env (drawn w) =? 0 then findClass class (r_Result r)
                 else (-1, Some "ids not matching")),
         afterSend w (requestOf env w client "getKlassen" ∅))) /\
  (forall ids r,
      Do env (wire w) (requestOf env w client "getTeachers" ∅) = inr resp ->
      asTeachers body = inr r ->
      snd (strconv.Atoi (r_ID r)) = Some "invalid syntax" ->
      ResolveTeachers env client ids w
      = (Return (if Intn env (drawn w) =? 0
                 then (namesFor te_ID te_Name ids (r_Result r), None)
                 else ([], Some "ids not matching")),
         afterSend w (requestOf env w client "getTeachers" ∅))).
Proof.
  intros Ha HRead. split.
  - intros class r HDo HJson Hsyntax.
    pose proof (Atoi_syntax_error_reads_zero _ Hsyntax) as Hzero.
    unfold ResolveClassID. rewrite Ha. cbn [negb]. unfold bind.
    rewrite sendRequest_run. cbn [fst snd]. rewrite HDo, HRead, HJson, Hzero.
    rewrite (Z.eqb_sym 0). destruct (Intn env (drawn w) =? 0); reflexivity.
  - intros ids r HDo HJson Hsyntax.
    pose proof (Atoi_syntax_error_reads_zero _ Hsyntax) as Hzero.
    unfold ResolveTeachers. rewrite Ha. cbn [negb]. unfold bind.
    rewrite sendRequest_run. cbn [fst snd]. rewrite HDo, HRead, HJson, Hzero.
    destruct (Intn env (drawn w) =? 0); [| reflexivity].
    unfold ret. rewrite resolveIDs_spec. reflexivity.
Qed.

Lemma unreadable_response_id_witness :
  fst (ResolveClassID (nullIds fifthForm) jdoe "5AHIF" emptyWorld) = Return (1, None) /\
  fst (ResolveClassID (nullIds fifthForm) jdoe "5AHIF" (mkWorld [] None 1 []))
  = Return (-1, Some "ids not matching").
Proof.
  split.
  - destruct (unreadable_response_id (nullIds fifthForm) jdoe emptyWorld
                (mkResponse (inr (nullBody fifthForm))) (nullBody fifthForm)
                eq_refl eq_refl) as (Hclass & _).
    rewrite (Hclass "5AHIF" _ eq_refl eq_refl eq_refl). reflexivity.
  - destruct (unreadable_response_id (nullIds fifthForm) jdoe (mkWorld [] None 1 [])
                (mkResponse (inr (nullBody fifthForm))) (nullBody fifthForm)
                eq_refl eq_refl) as (Hclass & _).
    rewrite (Hclass "5AHIF" _ eq_refl eq_refl eq_refl). reflexivity.
Defined.

(** ** Resolvers and retrievals: what they leave alone *)











Section Frame.
Context `{GoLib} (env : Env).




End Frame.

(** ** Resolvers: what the id loop returns *)

Section Loop.
Context {R : Type} (ID : R -> Z) (Name : R -> string).

Lemma resolveIDs_namesFor (ids : list Z) (listing : list R) :
  resolveIDs ID Name ids listing [] = namesFor ID Name ids listing.
Proof. rewrite resolveIDs_spec. reflexivity. Qed.

Lemma matches_of (id : Z) (listing : list R) (name : string) :
  In name (map Name (filter (fun res => id = ID res) listing))
  <-> exists res, In res listing /\ ID res = id /\ Name res = name.
Proof.
  rewrite in_map_iff. split.
  - intros (res & Hname & Hin). apply list_elem_of_In, list_elem_of_filter in Hin.
    destruct Hin as (Hid & Hin). apply list_elem_of_In in Hin. eauto.
  - intros (res & Hin & Hid & Hname). exists res. split; [exact Hname |].
    apply list_elem_of_In, list_elem_of_filter. split; [congruence |].
    apply list_elem_of_In. exact Hin.
Qed.

(** X12. The id loop shared by [ResolveTeachers], [ResolveRooms] and
    [ResolveClasses] returns exactly the names of the listing records whose
    id was asked for: a name is in the result if and only if some record of
    the listing carries it together with an id of the input. *)
Theorem resolved_names_are_the_matches (ids : list Z) (listing : list R) (name : string) :
  In name (resolveIDs ID Name ids listing [])
  <-> exists res, In res listing /\ In (ID res) ids /\ Name res = name.
Proof.
  rewrite resolveIDs_namesFor. unfold namesFor. rewrite in_flat_map. split.
  - intros (id & Hid & Hname). apply matches_of in Hname.
    destruct Hname as (res & Hin & <- & Hn). eauto.
  - intros (res & Hin & Hid & Hname). exists (ID res). split; [exact Hid |].
    apply matches_of. eauto.
Qed.

(** X13. The id loop works id by id: resolving a concatenation of id lists
    gives the concatenation of the results, so an id that occurs twice in
    the input has its names twice in the output, and the empty id list gives
    the empty name list. *)
Theorem resolved_names_concatenate (ids1 ids2 : list Z) (listing : list R) :
  resolveIDs ID Name (ids1 ++ ids2) listing []
  = (resolveIDs ID Name ids1 listing [] ++ resolveIDs ID Name ids2 listing [])%list /\
  resolveIDs ID Name [] listing [] = [] /\
  (forall id, resolveIDs ID Name [id; id] listing []
              = (resolveIDs ID Name [id] listing [] ++ resolveIDs ID Name [id] listing [])%list).
Proof.
  rewrite !resolveIDs_namesFor. unfold namesFor. split; [apply flat_map_app |].
  split; [reflexivity |].
  intros id. rewrite !resolveIDs_namesFor. unfold namesFor. cbn [flat_map].
  rewrite !app_nil_r. reflexivity.
Qed.

Lemma present_has_match (id : Z) (listing : list R) :
  (exists res, In res listing /\ ID res = id)
  <-> (1 <= length (filter (fun res => id = ID res) listing))%nat.
Proof.
  split.
  - intros (res & Hin & Hid).
    assert (Hel : res ∈ filter (fun res => id = ID res) listing).
    { apply list_elem_of_filter. split; [congruence | apply list_elem_of_In; exact Hin]. }
    destruct (filter (fun res => id = ID res) listing); [inversion Hel | cbn; lia].
  - intros Hlen.
    destruct (filter (fun res => id = ID res) listing) as [|res more] eqn:E;
      [cbn in Hlen; lia |].
    assert (Hel : res ∈ filter (fun res => id = ID res) listing).
    { rewrite E. left. }
    apply list_elem_of_filter in Hel as (Hid & Hin).
    exists res. split; [apply list_elem_of_In; exact Hin | congruence].
Qed.

(** X14. When the listing has no repeated id, the name list is parallel to
    the id list exactly when every input id is in the listing: then the
    [i]-th name is the name of the record carrying the [i]-th id; and as soon
    as one id is missing the result is shorter than the input, so positions
    no longer correspond. *)
Theorem names_parallel_to_ids (ids : list Z) (listing : list R) :
  NoDup (map ID listing) ->
  (length (resolveIDs ID Name ids listing []) = length ids
   <-> forall id, In id ids -> exists res, In res listing /\ ID res = id) /\
  ((forall id, In id ids -> exists res, In res listing /\ ID res = id) ->
   forall i id, ids !! i = Some id ->
                exists res, In res listing /\ ID res = id /\
                            resolveIDs ID Name ids listing [] !! i = Some (Name res)).
Proof.
  intros Hnd. rewrite resolveIDs_namesFor. split.
  - induction ids as [|id rest IH].
    + cbn. split; [intros _ id [] | reflexivity].
    + unfold namesFor in *. cbn [flat_map length]. rewrite length_app, length_map.
      pose proof (unique_id_one_match ID id listing Hnd) as Hone.
      pose proof (namesFor_length_unique ID Name rest listing Hnd) as Hle.
      unfold namesFor in Hle.
      split.
      * intros Hlen id' [<- | Hin].
        -- apply present_has_match. lia.
        -- apply IH; [lia | exact Hin].
      * intros Hall.
        assert (1 <= length (filter (fun res => id = ID res) listing))%nat
          by (apply present_has_match, Hall; left; reflexivity).
        assert (length (flat_map (fun id => map Name (filter (fun res => id = ID res)
                                                             listing)) rest)
                = length rest)
          by (apply IH; intros id' Hin; apply Hall; right; exact Hin).
        lia.
  - intros Hall. induction ids as [|id0 rest IH]; intros i id Hi; [discriminate |].
    unfold namesFor in *. cbn [flat_map].
    pose proof (unique_id_one_match ID id0 listing Hnd) as Hone.
    assert (Hpresent : (1 <= length (filter (fun res => id0 = ID res) listing))%nat)
      by (apply present_has_match, Hall; left; reflexivity).
    destruct (filter (fun res => id0 = ID res) listing) as [|res [|res' more]] eqn:E;
      cbn in Hone, Hpresent; try lia.
    assert (Hel : res ∈ filter (fun res => id0 = ID res) listing)
      by (rewrite E; left).
    apply list_elem_of_filter in Hel as (Hid & Hin).
    cbn [map app]. destruct i as [|i]; cbn in Hi |- *.
    + injection Hi as <-. exists res.
      split; [apply list_elem_of_In; exact Hin |]. split; [congruence | reflexivity].
    + apply IH; [| exact Hi]. intros id' Hin'. apply Hall. right. exact Hin'.
Qed.

End Loop.

Lemma names_parallel_to_ids_witness :
  length (resolveIDs kl_ID kl_Name [1] fifthForm []) = length [1] /\
  resolveIDs kl_ID kl_Name [1] fifthForm [] !! 0%nat = Some "5AHIF".
Proof.
  destruct (names_parallel_to_ids kl_ID kl_Name [1] fifthForm) as (Hlen & Hpos).
  { cbn. apply NoDup_singleton. }
  assert (Hall : forall id, In id [1] -> exists res, In res fifthForm /\ kl_ID res = id).
  { intros id [<- | []]. eexists. split; [left; reflexivity | reflexivity]. }
  split; [apply Hlen; exact Hall |].
  destruct (Hpos Hall 0%nat 1 eq_refl) as (res & Hin & Hid & Hname).
  destruct Hin as [<- | []]. exact Hname.
Defined.

(** ** Resolvers: class name to id, and back *)

Lemma findClass_first_match (class : string) (listing : list Klasse) :
  (exists i res,
      listing !! i = Some res /\ kl_Name res = class /\
      (forall j res', (j < i)%nat -> listing !! j = Some res' -> kl_Name res' <> class) /\
      findClass class listing = (kl_ID res, None)) \/
  ((forall res, In res listing -> kl_Name res <> class) /\
   findClass class listing = (-1, Some "class not found")).
Proof.
  induction listing as [|res rest IH]; cbn [findClass].
  - right. split; [intros res [] | reflexivity].
  - destruct (String.eqb_spec class (kl_Name res)) as [Heq|Hne].
    + left. exists 0%nat, res. repeat split; try congruence.
      intros j res' Hj. lia.
    + destruct IH as [(i & res1 & Hi & Hyes & Hfirst & Hfind) | (Hnone & Hfind)].
      * left. exists (S i), res1. repeat split; try assumption.
        intros [|j] res' Hj Hres'; cbn in Hres'.
        -- injection Hres' as <-. congruence.
        -- apply (Hfirst j res'); [lia | exact Hres'].
      * right. split; [| exact Hfind].
        intros res' [<- | Hin]; [congruence | apply Hnone; exact Hin].
Qed.

(** X15. On an authenticated client and a correlated class listing,
    [ResolveClassID] returns the id of the first record whose short name is
    exactly the given name (byte for byte; no trimming, no case folding),
    and fails with "class not found" and id -1 when no record has that
    name. *)
Theorem ResolveClassID_first_match (env : Env) (client : Client) (w : World)
        (class : string) (listing : list Klasse) :
  Authenticated client = true ->
  correlated asKlassen env w (requestOf env w client "getKlassen" ∅) listing ->
  exists result,
    ResolveClassID env client class w
    = (Return result, afterSend w (requestOf env w client "getKlassen" ∅)) /\
    ((exists i res,
         listing !! i = Some res /\ kl_Name res = class /\
         (forall j res', (j < i)%nat -> listing !! j = Some res' ->
                         kl_Name res' <> class) /\
         result = (kl_ID res, None)) \/
     ((forall res, In res listing -> kl_Name res <> class) /\
      result = (-1, Some "class not found"))).
Proof.
  intros Ha Hcorr. exists (findClass class listing).
  split; [apply ResolveClassID_correlated; assumption |].
  apply findClass_first_match.
Qed.

Lemma ResolveClassID_first_match_witness :
  fst (ResolveClassID (service [] [] fifthForm []) jdoe "5ahif" emptyWorld)
  = Return (-1, Some "class not found").
Proof.
  destruct (ResolveClassID_first_match (service [] [] fifthForm []) jdoe emptyWorld
              "5ahif" fifthForm eq_refl) as (result & Hrun & [Hfound | (_ & ->)]).
  - apply service_correlated; [cbn; lia | reflexivity].
  - destruct Hfound as ([|i] & res & Hi & Hname & _); [| destruct i; discriminate].
    injection Hi as <-. discriminate.
  - rewrite Hrun. reflexivity.
Defined.

(** X16. Name to id and back.  If a class name is in the listing,
    [ResolveClassID] finds an id for it, and [ResolveClasses] on that id
    (against the same listing) returns a list containing the name - just the
    name when the listing has no repeated id. *)
Theorem class_name_roundtrip (env : Env) (client : Client) (w w' : World)
        (class : string) (listing : list Klasse) :
  Authenticated client = true ->
  correlated asKlassen env w (requestOf env w client "getKlassen" ∅) listing ->
  correlated asKlassen env w' (requestOf env w' client "getKlassen" ∅) listing ->
  In class (map kl_Name listing) ->
  exists id names,
    fst (ResolveClassID env client class w) = Return (id, None) /\
    fst (ResolveClasses env client [id] w') = Return (names, None) /\
    In class names /\
    (NoDup (map kl_ID listing) -> names = [class]).
Proof.
  intros Ha Hc Hc' Hin.
  rewrite (ResolveClassID_correlated env client class w listing Ha Hc). cbn [fst].
  destruct (findClass_first_match class listing)
    as [(i & res & Hi & Hname & _ & Hfind) | (Hnone & _)].
  - exists (kl_ID res), (namesFor kl_ID kl_Name [kl_ID res] listing).
    rewrite (ResolveClasses_correlated env client _ w' listing Ha Hc'). cbn [fst].
    rewrite Hfind. split; [reflexivity |]. split; [reflexivity |].
    assert (Hres : In res listing).
    { apply list_elem_of_In. eapply list_elem_of_lookup_2. exact Hi. }
    assert (Hmem : In class (namesFor kl_ID kl_Name [kl_ID res] listing)).
    { unfold namesFor. cbn [flat_map]. rewrite app_nil_r.
      apply matches_of. exists res. auto. }
    split; [exact Hmem |].
    intros Hnd.
    pose proof (namesFor_length_unique kl_ID kl_Name [kl_ID res] listing Hnd) as Hlen.
    destruct (namesFor kl_ID kl_Name [kl_ID res] listing) as [|n [|n' more]];
      cbn in Hlen, Hmem; try lia; try contradiction.
    destruct Hmem as [-> | []]. reflexivity.
  - exfalso. apply in_map_iff in Hin as (res & Hname & Hres).
    exact (Hnone res Hres Hname).
Qed.

Lemma class_name_roundtrip_witness :
  exists id names,
    fst (ResolveClassID (service [] [] fifthForm []) jdoe "5AHIF" emptyWorld)
    = Return (id, None) /\
    fst (ResolveClasses (service [] [] fifthForm []) jdoe [id] (mkWorld [] None 1 []))
    = Return (names, None) /\
    In "5AHIF" names /\
    (NoDup (map kl_ID fifthForm) -> names = ["5AHIF"]).
Proof.
  apply (class_name_roundtrip (service [] [] fifthForm []) jdoe emptyWorld
           (mkWorld [] None 1 []) "5AHIF" fifthForm).
  - reflexivity.
  - apply service_correlated; [cbn; lia | reflexivity].
  - apply service_correlated; [cbn; lia | reflexivity].
  - left. reflexivity.
Defined.

(** ** Resolvers: failures *)

Ltac resolver_fails Ha :=
  rewrite Ha; cbn [negb]; unfold bind; rewrite sendRequest_run; cbn [fst snd].

Ltac resolver_mismatch Ha Hcorr :=
  destruct Hcorr as (resp & body & r & HDo & HRead & HJson & Hne);
  resolver_fails Ha; rewrite HDo, HRead, HJson;
  cbn [rq_id requestOf] in Hne;
  first [ rewrite (proj2 (Z.eqb_neq _ _) Hne)
        | rewrite (proj2 (Z.eqb_neq _ _) (not_eq_sym Hne)) ];
  reflexivity.

(** X17. Failures of the five resolvers.  On an authenticated client, a
    transport error is returned as it is, and an answer whose id does not
    read as the request id gives "ids not matching" - whatever the listing
    holds; in both cases the value is nil (for the id resolvers) or -1 (for
    the name resolvers), and exactly one request was sent. *)
Theorem resolver_failures `{GoLib} (env : Env) (client : Client) (w : World) :
  Authenticated client = true ->
  (forall ids,
      let req := requestOf env w client "getTeachers" ∅ in
      (forall err, Do env (wire w) req = inl err ->
                   ResolveTeachers env client ids w
                   = (Return ([], Some err), afterSend w req)) /\
      (miscorrelated asTeachers env w req ->
       ResolveTeachers env client ids w
       = (Return ([], Some "ids not matching"), afterSend w req))) /\
  (forall ids,
      let req := requestOf env w client "getRooms" ∅ in
      (forall err, Do env (wire w) req = inl err ->
                   ResolveRooms env client ids w
                   = (Return ([], Some err), afterSend w req)) /\
      (miscorrelated asRooms env w req ->
       ResolveRooms env client ids w
       = (Return ([], Some "ids not matching"), afterSend w req))) /\
  (forall ids,
      let req := requestOf env w client "getKlassen" ∅ in
      (forall err, Do env (wire w) req = inl err ->
                   ResolveClasses env client ids w
                   = (Return ([], Some err), afterSend w req)) /\
      (miscorrelated asKlassen env w req ->
       ResolveClasses env client ids w
       = (Return ([], Some "ids not matching"), afterSend w req))) /\
  (forall teacher,
      let req := requestOf env w client "getTeachers" ∅ in
      (forall err, Do env (wire w) req = inl err ->
                   ResolveTeacherID env client teacher w
                   = (Return (-1, Some err), afterSend w req)) /\
      (miscorrelated asTeachers env w req ->
       ResolveTeacherID env client teacher w
       = (Return (-1, Some "ids not matching"), afterSend w req))) /\
  (forall class,
      let req := requestOf env w client "getKlassen" ∅ in
      (forall err, Do env (wire w) req = inl err ->
                   ResolveClassID env client class w
                   = (Return (-1, Some err), afterSend w req)) /\
      (miscorrelated asKlassen env w req ->
       ResolveClassID env client class w
       = (Return (-1, Some "ids not matching"), afterSend w req))).
Proof.
  intros Ha.
  split; [| split; [| split; [| split]]]; intros x req; subst req; split.
  - intros err HDo. unfold ResolveTeachers. resolver_fails Ha. rewrite HDo. reflexivity.
  - intros Hcorr. unfold ResolveTeachers. resolver_mismatch Ha Hcorr.
  - intros err HDo. unfold ResolveRooms. resolver_fails Ha. rewrite HDo. reflexivity.
  - intros Hcorr. unfold ResolveRooms. resolver_mismatch Ha Hcorr.
  - intros err HDo. unfold ResolveClasses. resolver_fails Ha. rewrite HDo. reflexivity.
  - intros Hcorr. unfold ResolveClasses. resolver_mismatch Ha Hcorr.
  - intros err HDo. unfold ResolveTeacherID. resolver_fails Ha. rewrite HDo. reflexivity.
  - intros Hcorr. unfold ResolveTeacherID. resolver_mismatch Ha Hcorr.
  - intros err HDo. unfold ResolveClassID. resolver_fails Ha. rewrite HDo. reflexivity.
  - intros Hcorr. unfold ResolveClassID. resolver_mismatch Ha Hcorr.
Qed.

Lemma resolver_failures_witness :
  fst (ResolveTeachers unreachable jdoe [7] emptyWorld)
  = Return ([], Some "connection refused") /\
  fst (ResolveClassID (alwaysSeven smiths fifthForm) jdoe "5AHIF" emptyWorld)
  = Return (-1, Some "ids not matching").
Proof.
  split.
  - destruct (resolver_failures unreachable jdoe emptyWorld eq_refl) as (Hte & _).
    destruct (Hte [7]) as (Herr & _).
    rewrite (Herr "connection refused" eq_refl). reflexivity.
  - destruct (resolver_failures (alwaysSeven smiths fifthForm) jdoe emptyWorld eq_refl)
      as (_ & _ & _ & _ & Hcl).
    destruct (Hcl "5AHIF") as (_ & Hmis).
    rewrite Hmis; [reflexivity |].
    eexists _, _, _. split; [reflexivity |]. split; [reflexivity |].
    split; [reflexivity |]. cbn. discriminate.
Defined.

(** ** Fixed-width decimal strings *)

Section FixedWidth.
Import strconv.

Lemma fixedWidth_length (k : nat) : forall n, String.length (fixedWidth k n) = k.
Proof.
  induction k as [|k IH]; intros n; [reflexivity |].
  cbn [fixedWidth]. rewrite length_append, IH. cbn. lia.
Qed.

(** A number of exactly [k] digits is rendered by [utoa] as those digits. *)
Lemma utoa_fixedWidth (k : nat) :
  forall fuel n,
    (k <= fuel)%nat -> 10 ^ Z.of_nat k <= n < 10 ^ Z.of_nat (S k) ->
    utoa (S fuel) n = fixedWidth (S k) n.
Proof.
  induction k as [|k IH]; intros fuel n Hf Hn.
  - rewrite utoa_S. change (10 ^ Z.of_nat 1) with 10 in Hn.
    change (10 ^ Z.of_nat 0) with 1 in Hn.
    destruct (Z.ltb_spec n 10); [| lia].
    cbn [fixedWidth]. rewrite Z.mod_small by lia. reflexivity.
  - rewrite utoa_S.
    assert (Hpow : 10 ^ Z.of_nat (S k) = 10 * 10 ^ Z.of_nat k)
      by (rewrite Nat2Z.inj_succ, Z.pow_succ_r by lia; reflexivity).
    assert (Hpow' : 10 ^ Z.of_nat (S (S k)) = 10 * 10 ^ Z.of_nat (S k))
      by (rewrite (Nat2Z.inj_succ (S k)), Z.pow_succ_r by lia; reflexivity).
    assert (0 < 10 ^ Z.of_nat k) by (apply Z.pow_pos_nonneg; lia).
    destruct (Z.ltb_spec n 10); [lia |].
    destruct fuel as [|fuel]; [lia |].
    rewrite (IH fuel (n / 10)); [reflexivity | lia |].
    split.
    + apply Z.div_le_lower_bound; lia.
    + apply Z.div_lt_upper_bound; lia.
Qed.

Lemma parseDigits_fixedWidth (k : nat) :
  forall n, 0 <= n < 10 ^ Z.of_nat k -> parseDigits (fixedWidth k n) 0 = Some n.
Proof.
  induction k as [|k IH]; intros n Hn.
  - cbn in Hn. assert (n = 0) as -> by lia. reflexivity.
  - cbn [fixedWidth].
    assert (Hmod : 0 <= n mod 10 < 10) by (apply Z.mod_pos_bound; lia).
    rewrite Nat2Z.inj_succ, Z.pow_succ_r in Hn by lia.
    rewrite parseDigits_snoc, IH.
    + destruct (digitChar_digit (n mod 10) Hmod) as (-> & -> & _).
      pose proof (Z.div_mod n 10). f_equal; lia.
    + split; [apply Z.div_pos; lia | apply Z.div_lt_upper_bound; lia].
Qed.

Lemma fixedWidth_head (k : nat) :
  forall n, 0 <= n ->
            exists c rest, fixedWidth (S k) n = String c rest /\
                           c <> "-"%char /\ c <> "+"%char.
Proof.
  induction k as [|k IH]; intros n Hn.
  - assert (Hmod : 0 <= n mod 10 < 10) by (apply Z.mod_pos_bound; lia).
    destruct (digitChar_digit (n mod 10) Hmod) as (_ & _ & Hm & Hp).
    cbn [fixedWidth]. eexists _, _. split; [reflexivity | auto].
  - destruct (IH (n / 10)) as (c & rest & Heq & Hm & Hp).
    { apply Z.div_pos; lia. }
    change (fixedWidth (S (S k)) n)
      with (fixedWidth (S k) (n / 10) +:+ String (digitChar (n mod 10)) "").
    rewrite Heq. eexists _, _. split; [apply append_cons | auto].
Qed.

(** [Atoi] reads a fixed-width string as the number it was written from,
    leading zeros included. *)
Lemma Atoi_fixedWidth (k : nat) (n : Z) :
  0 <= n < 10 ^ Z.of_nat (S k) -> n < 2 ^ 63 ->
  Atoi (fixedWidth (S k) n) = (n, None).
Proof.
  intros Hn Hr.
  destruct (fixedWidth_head k n ltac:(lia)) as (c & rest & Heq & Hm & Hp).
  pose proof (parseDigits_fixedWidth (S k) n Hn) as Hparse.
  rewrite Heq in *. apply Atoi_unsigned; auto. lia.
Qed.

(** The last [b] digits can be written separately. *)
Lemma fixedWidth_split (a b : nat) :
  forall n, 0 <= n ->
            fixedWidth (b + a) n
            = fixedWidth a (n / 10 ^ Z.of_nat b) +:+ fixedWidth b (n mod 10 ^ Z.of_nat b).
Proof.
  induction b as [|b IH]; intros n Hn.
  - cbn [Nat.add fixedWidth]. change (10 ^ Z.of_nat 0) with 1.
    rewrite Z.div_1_r, append_nil_r. reflexivity.
  - cbn [Nat.add fixedWidth].
    assert (Hpos : 0 < 10 ^ Z.of_nat b) by (apply Z.pow_pos_nonneg; lia).
    assert (Hpow : 10 ^ Z.of_nat (S b) = 10 * 10 ^ Z.of_nat b)
      by (rewrite Nat2Z.inj_succ, Z.pow_succ_r by lia; reflexivity).
    rewrite (IH (n / 10)) by (apply Z.div_pos; lia).
    rewrite append_assoc, Hpow.
    rewrite Z.div_div by lia.
    assert (Hrem : n mod (10 * 10 ^ Z.of_nat b)
                   = n mod 10 + 10 * ((n / 10) mod 10 ^ Z.of_nat b))
      by (apply Z.rem_mul_r; lia).
    assert (Hlow : 0 <= n mod 10 < 10) by (apply Z.mod_pos_bound; lia).
    assert (Hdiv : (n mod (10 * 10 ^ Z.of_nat b)) / 10 = (n / 10) mod 10 ^ Z.of_nat b).
    { rewrite Hrem. symmetry. apply Z.div_unique with (r := n mod 10); lia. }
    assert (Hmod : (n mod (10 * 10 ^ Z.of_nat b)) mod 10 = n mod 10).
    { rewrite Hrem. symmetry.
      apply Z.mod_unique with (q := (n / 10) mod 10 ^ Z.of_nat b); lia. }
    rewrite Hdiv, Hmod. reflexivity.
Qed.

(** Slicing a string made of three pieces at the piece boundaries. *)
Lemma slice_three (a b c : string) :
  slice (a +:+ b +:+ c) 0 (len a) = Some a /\
  slice (a +:+ b +:+ c) (len a) (len a + len b) = Some b /\
  slice (a +:+ b +:+ c) (len a + len b) (len a + len b + len c) = Some c.
Proof.
  split; [| split].
  - pose proof (slice_prefix a (b +:+ c)) as Hp.
    replace (len (a +:+ b +:+ c) - len (b +:+ c)) with (len a) in Hp; [exact Hp |].
    unfold len. rewrite !length_append. lia.
  - pose proof (slice_suffix a (b +:+ c)) as Ha1.
    pose proof (slice_prefix (a +:+ b) c) as Hp.
    rewrite append_assoc in Hp.
    unfold slice in *.
    replace (len (a +:+ b +:+ c) - len c) with (len a + len b) in Hp
      by (unfold len; rewrite !length_append; lia).
    assert (Hlen : len (a +:+ b +:+ c) = len a + len b + len c)
      by (unfold len; rewrite !length_append; lia).
    assert (0 <= len a /\ 0 <= len b /\ 0 <= len c) as (Ha0 & Hb0 & Hc0)
      by (unfold len; lia).
    rewrite Hlen.
    destruct (Z.leb_spec 0 (len a)); [| lia].
    destruct (Z.leb_spec (len a) (len a + len b)); [| lia].
    destruct (Z.leb_spec (len a + len b) (len a + len b + len c)); [| lia].
    cbn [andb]. f_equal.
    replace (len a + len b - len a) with (len b) by lia.
    unfold len. rewrite !Nat2Z.id.
    clear. induction a as [|x a IH].
    + cbn [String.length]. change ("" +:+ b +:+ c) with (b +:+ c).
      apply substring_prefix.
    + rewrite append_cons. cbn [String.length substring]. exact IH.
  - pose proof (slice_suffix (a +:+ b) c) as Hs.
    rewrite append_assoc in Hs.
    replace (len (a +:+ b +:+ c) - len c) with (len a + len b) in Hs
      by (unfold len; rewrite !length_append; lia).
    replace (len (a +:+ b +:+ c)) with (len a + len b + len c) in Hs
      by (unfold len; rewrite !length_append; lia).
    exact Hs.
Qed.

End FixedWidth.

(** ** TimetableRetrieval: dates *)

Lemma utoa_length_le (k : nat) :
  forall fuel n, 0 <= n < 10 ^ Z.of_nat (S k) ->
                 (String.length (strconv.utoa fuel n) <= S k)%nat.
Proof.
  induction k as [|k IH]; intros fuel n Hn.
  - destruct fuel as [|fuel]; [cbn; lia |]. rewrite utoa_S.
    change (10 ^ Z.of_nat 1) with 10 in Hn.
    destruct (Z.ltb_spec n 10); [cbn; lia | lia].
  - destruct fuel as [|fuel]; [cbn; lia |]. rewrite utoa_S.
    destruct (Z.ltb_spec n 10); [cbn; lia |].
    rewrite length_append. cbn [String.length].
    rewrite (Nat2Z.inj_succ (S k)), Z.pow_succ_r in Hn by lia.
    assert (String.length (strconv.utoa fuel (n / 10)) <= S k)%nat.
    { apply IH. split; [apply Z.div_pos; lia | apply Z.div_lt_upper_bound; lia]. }
    lia.
Qed.

Lemma Itoa_eight_digits (d : Z) :
  10 ^ 7 <= d < 10 ^ 8 ->
  strconv.Itoa d
  = fixedWidth 4 (d / 10000) +:+ fixedWidth 2 (d / 100 mod 100) +:+ fixedWidth 2 (d mod 100).
Proof.
  intros Hd. unfold strconv.Itoa. destruct (Z.ltb_spec d 0); [lia |].
  change strconv.maxDigits with (S 19).
  rewrite (utoa_fixedWidth 7 19 d) by (try lia; exact Hd).
  change 8%nat with (4 + 4)%nat. rewrite fixedWidth_split by lia.
  change (10 ^ Z.of_nat 4) with 10000.
  change (fixedWidth 4 (d mod 10000)) with (fixedWidth (2 + 2) (d mod 10000)).
  rewrite (fixedWidth_split 2 2 (d mod 10000)) by (apply Z.mod_pos_bound; lia).
  change (10 ^ Z.of_nat 2) with 100.
  replace (d mod 10000 / 100) with (d / 100 mod 100)
    by (clear; Z.div_mod_to_equations; lia).
  replace (d mod 10000 mod 100) with (d mod 100)
    by (clear; Z.div_mod_to_equations; lia).
  reflexivity.
Qed.

(** The three date slices of an eight-digit date. *)
Lemma date_slices (d : Z) :
  10 ^ 7 <= d < 10 ^ 8 ->
  exists yyyy mm dd,
    slice (strconv.Itoa d) 0 4 = Some yyyy /\
    slice (strconv.Itoa d) 4 6 = Some mm /\
    slice (strconv.Itoa d) 6 8 = Some dd /\
    fst (strconv.Atoi yyyy) = d / 10000 /\
    fst (strconv.Atoi mm) = d / 100 mod 100 /\
    fst (strconv.Atoi dd) = d mod 100.
Proof.
  intros Hd. rewrite (Itoa_eight_digits d Hd).
  destruct (slice_three (fixedWidth 4 (d / 10000)) (fixedWidth 2 (d / 100 mod 100))
                        (fixedWidth 2 (d mod 100))) as (H1 & H2 & H3).
  unfold len in H1, H2, H3. rewrite !fixedWidth_length in H1, H2, H3.
  change (Z.of_nat 4) with 4 in *. change (Z.of_nat 2) with 2 in *.
  change (4 + 2) with 6 in *. change (6 + 2) with 8 in *.
  eexists _, _, _. split; [exact H1 |]. split; [exact H2 |]. split; [exact H3 |].
  assert (0 <= d / 10000 < 10000).
  { split; [apply Z.div_pos; lia | apply Z.div_lt_upper_bound; lia]. }
  assert (0 <= d / 100 mod 100 < 100) by (apply Z.mod_pos_bound; lia).
  assert (0 <= d mod 100 < 100) by (apply Z.mod_pos_bound; lia).
  rewrite !Atoi_fixedWidth; cbn [fst]; try lia;
    try (change (10 ^ Z.of_nat 4) with 10000; lia);
    try (change (10 ^ Z.of_nat 2) with 100; lia);
    auto.
Qed.

Lemma dateFields_readable (d : Z) :
  10 ^ 7 <= d < 10 ^ 8 ->
  dateFields d = Some (d / 10000, d / 100 mod 100, d mod 100).
Proof.
  intros Hd. unfold dateFields.
  destruct (date_slices d Hd) as (yyyy & mm & dd & -> & -> & -> & -> & -> & ->).
  reflexivity.
Qed.

Lemma date_slice_short (d : Z) :
  0 <= d < 10 ^ 7 -> slice (strconv.Itoa d) 6 8 = None.
Proof.
  intros Hd. unfold slice, strconv.Itoa. destruct (Z.ltb_spec d 0); [lia |].
  pose proof (utoa_length_le 6 strconv.maxDigits d Hd) as Hlen.
  destruct (Z.leb_spec 8 (len (strconv.utoa strconv.maxDigits d))) as [Hge|_].
  - unfold len in Hge. lia.
  - rewrite andb_false_r. reflexivity.
Qed.

Lemma twoDigits_fixedWidth (n : Z) : 0 <= n <= 99 -> twoDigits n = fixedWidth 2 n.
Proof.
  intros Hn. unfold twoDigits, strconv.Itoa. destruct (Z.ltb_spec n 0); [lia |].
  change strconv.maxDigits with (S 19).
  destruct (Z.lt_ge_cases n 10) as [Hlt|Hge].
  - rewrite utoa_S. destruct (Z.ltb_spec n 10); [| lia].
    cbn [len String.length Z.of_nat Z.eqb]. cbn [fixedWidth].
    rewrite (Z.mod_small n 10), (Z.div_small n 10) by lia. reflexivity.
  - rewrite (utoa_fixedWidth 1 19 n) by (try lia; change (10 ^ Z.of_nat 1) with 10;
                                         change (10 ^ Z.of_nat 2) with 100; lia).
    unfold len. rewrite fixedWidth_length. reflexivity.
Qed.

(** X18. The date sent and the date read are the same format.  For a time
    with a four-digit year, [dateParam] (the [startDate]/[endDate] of a
    timetable request) is the decimal rendering of [YYYYMMDD] as one
    integer, and the record decoder reads that integer back as the year,
    month and day it was built from. *)
Theorem date_format_roundtrip `{GoLib} (t : Time) :
  1000 <= Year t <= 9999 ->
  1 <= Month t <= 12 ->
  1 <= Day t <= 31 ->
  dateParam t = strconv.Itoa (packedDate t) /\
  String.length (dateParam t) = 8%nat /\
  dateFields (packedDate t) = Some (Year t, Month t, Day t).
Proof.
  intros Hy Hm Hd. unfold packedDate.
  set (d := Year t * 10000 + Month t * 100 + Day t).
  assert (Hrange : 10 ^ 7 <= d < 10 ^ 8) by (subst d; lia).
  assert (Hyear : d / 10000 = Year t) by (subst d; Z.div_mod_to_equations; lia).
  assert (Hmonth : d / 100 mod 100 = Month t) by (subst d; Z.div_mod_to_equations; lia).
  assert (Hday : d mod 100 = Day t) by (subst d; Z.div_mod_to_equations; lia).
  assert (Hparam : dateParam t = strconv.Itoa d).
  { rewrite (Itoa_eight_digits d Hrange), Hyear, Hmonth, Hday.
    unfold dateParam. rewrite !twoDigits_fixedWidth by lia.
    unfold strconv.Itoa. destruct (Z.ltb_spec (Year t) 0); [lia |].
    change strconv.maxDigits with (S 19).
    rewrite (utoa_fixedWidth 3 19 (Year t))
      by (try lia; change (10 ^ Z.of_nat 3) with 1000;
          change (10 ^ Z.of_nat 4) with 10000; lia).
    reflexivity. }
  split; [exact Hparam |]. split.
  - rewrite Hparam, (Itoa_eight_digits d Hrange).
    rewrite !length_append, !fixedWidth_length. reflexivity.
  - rewrite (dateFields_readable d Hrange), Hyear, Hmonth, Hday. reflexivity.
Qed.

Lemma date_format_roundtrip_witness :
  dateParam monday = "20240311" /\
  dateFields 20240311 = Some (2024, 3, 11).
Proof.
  destruct (@date_format_roundtrip civilLib monday) as (Hparam & _ & Hfields);
    [cbn; lia | cbn; lia | cbn; lia |].
  split; [rewrite Hparam; reflexivity | exact Hfields].
Defined.

(** ** TimetableRetrieval: the record loop *)

Section RecordLoop.
Context `{GoLib} (env : Env).

Lemma lessonsOf_unreadable (client : Client) (l : Period) (rest : list Period)
      (lessons : list Lesson) (w : World) :
  unreadable l ->
  lessonsOf env client (l :: rest) lessons w = (Panic "slice bounds out of range", w).
Proof.
  intros Hbad. cbn [lessonsOf].
  destruct Hbad as [Hdate | [Hstart | Hend]].
  - rewrite (date_slice_short _ Hdate).
    destruct (slice _ 0 4); [| reflexivity]. destruct (slice _ 4 6); reflexivity.
  - rewrite (clock_single_digit _ Hstart).
    destruct (slice _ 0 4); [| reflexivity]. destruct (slice _ 4 6); [| reflexivity].
    destruct (slice _ 6 8); reflexivity.
  - rewrite (clock_single_digit _ Hend).
    destruct (slice _ 0 4); [| reflexivity]. destruct (slice _ 4 6); [| reflexivity].
    destruct (slice _ 6 8); [| reflexivity].
    destruct (clock (pe_StartTime l)) as [[sh sm]|]; reflexivity.
Qed.

(** One turn of the loop on a readable record, with the listings served:
    three requests, one lesson appended. *)
Lemma lessonsOf_readable (client : Client) (klassen : list Klasse)
      (teachers : list Teacher) (rooms : list Room)
      (l : Period) (rest : list Period) (lessons : list Lesson) (w : World) :
  Authenticated client = true ->
  answersListings env client klassen teachers rooms ->
  readable l ->
  exists w3,
    lessonsOf env client (l :: rest) lessons w
    = lessonsOf env client rest (lessons ++ [lessonFor klassen teachers rooms l])%list w3 /\
    map rq_method (wire w3)
    = (map rq_method (wire w) ++ ["getKlassen"; "getTeachers"; "getRooms"])%list.
Proof.
  intros Ha Hserve (Hdate & Hstart & Hend).
  cbn [lessonsOf].
  destruct (date_slices _ Hdate) as (yyyy & mm & dd & -> & -> & -> & Hy & Hm & Hd).
  rewrite (clock_decodes _ Hstart), (clock_decodes _ Hend).
  set (w1 := afterSend w (requestOf env w client "getKlassen" ∅)).
  set (w2 := afterSend w1 (requestOf env w1 client "getTeachers" ∅)).
  set (w3 := afterSend w2 (requestOf env w2 client "getRooms" ∅)).
  exists w3. split.
  - unfold bind at 1.
    rewrite (ResolveClasses_correlated env client _ w klassen Ha (proj1 (Hserve w))).
    cbn [snd fst]. unfold bind at 1. fold w1.
    rewrite (ResolveTeachers_correlated env client _ w1 teachers Ha
               (proj1 (proj2 (Hserve w1)))).
    cbn [snd fst]. unfold bind at 1. fold w2.
    rewrite (ResolveRooms_correlated env client _ w2 rooms Ha
               (proj2 (proj2 (Hserve w2)))).
    cbn [snd fst]. fold w3. rewrite Hy, Hm, Hd. reflexivity.
  - subst w3 w2 w1. cbn [wire afterSend]. rewrite !map_app. cbn [map rq_method requestOf].
    rewrite <- !app_assoc. reflexivity.
Qed.

Lemma lessonsOf_served (client : Client) (klassen : list Klasse)
      (teachers : list Teacher) (rooms : list Room) (records : list Period) :
  Authenticated client = true ->
  answersListings env client klassen teachers rooms ->
  Forall readable records ->
  forall lessons w,
  exists w',
    lessonsOf env client records lessons w
    = (Return ((lessons ++ map (lessonFor klassen teachers rooms) records)%list, None), w') /\
    map rq_method (wire w')
    = (map rq_method (wire w) ++ listingCalls (length records))%list.
Proof.
  intros Ha Hserve Hall. induction Hall as [|l rest Hl Hrest IH]; intros lessons w.
  - exists w. cbn. rewrite !app_nil_r. split; reflexivity.
  - destruct (lessonsOf_readable client klassen teachers rooms l rest lessons w
                Ha Hserve Hl) as (w3 & -> & Hwire3).
    destruct (IH (lessons ++ [lessonFor klassen teachers rooms l])%list w3)
      as (w' & -> & Hwire).
    exists w'. split.
    + cbn [map]. rewrite <- app_assoc. reflexivity.
    + rewrite Hwire, Hwire3, <- app_assoc. reflexivity.
Qed.

Lemma lessonsOf_stops_at_unreadable (client : Client) (klassen : list Klasse)
      (teachers : list Teacher) (rooms : list Room)
      (good : list Period) (bad : Period) (rest : list Period) :
  Authenticated client = true ->
  answersListings env client klassen teachers rooms ->
  Forall readable good ->
  unreadable bad ->
  forall lessons w,
  exists w',
    lessonsOf env client (good ++ bad :: rest) lessons w
    = (Panic "slice bounds out of range", w') /\
    map rq_method (wire w')
    = (map rq_method (wire w) ++ listingCalls (length good))%list.
Proof.
  intros Ha Hserve Hall Hbad. induction Hall as [|l more Hl Hmore IH]; intros lessons w.
  - exists w. cbn [app]. rewrite (lessonsOf_unreadable client bad rest lessons w Hbad).
    cbn. rewrite app_nil_r. split; reflexivity.
  - cbn [app].
    destruct (lessonsOf_readable client klassen teachers rooms l (more ++ bad :: rest)
                lessons w Ha Hserve Hl) as (w3 & -> & Hwire3).
    destruct (IH (lessons ++ [lessonFor klassen teachers rooms l])%list w3)
      as (w' & -> & Hwire).
    exists w'. split; [reflexivity |].
    rewrite Hwire, Hwire3, <- app_assoc. reflexivity.
Qed.

Lemma getTimetable_correlated (client : Client) (params : gmap string Param)
      (w : World) (records : list Period) :
  correlated asTimetable env w (requestOf env w client "getTimetable" params) records ->
  getTimetable env client params w
  = lessonsOf env client records []
              (afterSend w (requestOf env w client "getTimetable" params)).
Proof.
  intros (resp & body & r & HDo & HRead & HJson & Hid & Hres).
  unfold getTimetable, bind. rewrite sendRequest_run. cbn [fst snd].
  rewrite HDo, HRead, HJson, Hid. cbn [rq_id requestOf].
  rewrite Z.eqb_refl, Hres. reflexivity.
Qed.

(** X19. A whole retrieval against a service that answers.  When the
    timetable answer is correlated and holds [n] readable records, and the
    three listing requests are answered as well, [GetTimetableOfTeacher]
    (asking for the client's own [PersonID] and [PersonType]) returns
    without error exactly [n] lessons, in the order of the records; each
    carries the decoded date and times, the record's id lists, and the names
    resolved for them.  It sends [1 + 3n] requests: the timetable request,
    then for each record the class, teacher and room listings. *)
Theorem timetable_of_served_records (client : Client) (start end_ : Time) (w : World)
        (klassen : list Klasse) (teachers : list Teacher) (rooms : list Room)
        (records : list Period) :
  Authenticated client = true ->
  answersListings env client klassen teachers rooms ->
  correlated asTimetable env w
             (requestOf env w client "getTimetable"
                        (timetableParams (PersonID client) (PersonType client) start end_))
             records ->
  Forall readable records ->
  exists w',
    GetTimetableOfTeacher env client start end_ w
    = (Return (map (lessonFor klassen teachers rooms) records, None), w') /\
    map rq_method (wire w')
    = (map rq_method (wire w) ++ "getTimetable" :: listingCalls (length records))%list /\
    length (wire w') = (length (wire w) + 1 + 3 * length records)%nat.
Proof.
  intros Ha Hserve Hcorr Hall. unfold GetTimetableOfTeacher. rewrite Ha. cbn [negb].
  fold (timetableParams (PersonID client) (PersonType client) start end_).
  rewrite (getTimetable_correlated client _ w records Hcorr).
  destruct (lessonsOf_served client klassen teachers rooms records Ha Hserve Hall []
              (afterSend w (requestOf env w client "getTimetable"
                                      (timetableParams (PersonID client)
                                                       (PersonType client) start end_))))
    as (w' & -> & Hwire).
  exists w'. split; [reflexivity |].
  assert (Hmethods : map rq_method (wire w')
                     = (map rq_method (wire w)
                          ++ "getTimetable" :: listingCalls (length records))%list).
  { rewrite Hwire. cbn [wire afterSend]. rewrite map_app. cbn [map rq_method requestOf].
    rewrite <- app_assoc. reflexivity. }
  split; [exact Hmethods |].
  apply (f_equal (@length string)) in Hmethods.
  rewrite length_app, !length_map in Hmethods. cbn [length] in Hmethods.
  assert (Hcalls : forall n, length (listingCalls n) = (3 * n)%nat).
  { clear. induction n as [|n IH]; [reflexivity |]. cbn [listingCalls length]. lia. }
  rewrite Hcalls in Hmethods. lia.
Qed.

(** X20. One unreadable record loses the whole retrieval.  If the
    timetable answer holds readable records followed by one whose date has
    fewer than eight digits or whose start or end time is a single digit
    (0 is what a missing field decodes to), [GetTimetableOfTeacher] panics
    on a slice out of range: it returns neither an error nor the lessons
    already built, although the listing requests for those were sent. *)
Theorem timetable_panics_on_unreadable_record (client : Client) (start end_ : Time)
        (w : World) (klassen : list Klasse) (teachers : list Teacher)
        (rooms : list Room) (good : list Period) (bad : Period) (rest : list Period) :
  Authenticated client = true ->
  answersListings env client klassen teachers rooms ->
  correlated asTimetable env w
             (requestOf env w client "getTimetable"
                        (timetableParams (PersonID client) (PersonType client) start end_))
             (good ++ bad :: rest)%list ->
  Forall readable good ->
  unreadable bad ->
  exists w',
    GetTimetableOfTeacher env client start end_ w
    = (Panic "slice bounds out of range", w') /\
    map rq_method (wire w')
    = (map rq_method (wire w) ++ "getTimetable" :: listingCalls (length good))%list.
Proof.
  intros Ha Hserve Hcorr Hall Hbad. unfold GetTimetableOfTeacher. rewrite Ha. cbn [negb].
  fold (timetableParams (PersonID client) (PersonType client) start end_).
  rewrite (getTimetable_correlated client _ w _ Hcorr).
  destruct (lessonsOf_stops_at_unreadable client klassen teachers rooms good bad rest
              Ha Hserve Hall Hbad []
              (afterSend w (requestOf env w client "getTimetable"
                                      (timetableParams (PersonID client)
                                                       (PersonType client) start end_))))
    as (w' & -> & Hwire).
  exists w'. split; [reflexivity |].
  rewrite Hwire. cbn [wire afterSend]. rewrite map_app. cbn [map rq_method requestOf].
  rewrite <- app_assoc. reflexivity.
Qed.

(** X21. Failures of the timetable request itself.  On an authenticated
    client, a transport error on the [getTimetable] request is returned as
    it is, and an answer whose id does not read as the request id gives
    "ids not matching"; either way no lesson is returned and no listing is
    requested - the timetable request is the only one sent. *)
Theorem timetable_request_failures (client : Client) (start end_ : Time) (w : World) :
  Authenticated client = true ->
  let req := requestOf env w client "getTimetable"
                       (timetableParams (PersonID client) (PersonType client) start end_) in
  (forall err, Do env (wire w) req = inl err ->
               GetTimetableOfTeacher env client start end_ w
               = (Return ([], Some err), afterSend w req)) /\
  (miscorrelated asTimetable env w req ->
   GetTimetableOfTeacher env client start end_ w
   = (Return ([], Some "ids not matching"), afterSend w req)).
Proof.
  intros Ha req. subst req. unfold GetTimetableOfTeacher. rewrite Ha. cbn [negb].
  fold (timetableParams (PersonID client) (PersonType client) start end_).
  unfold getTimetable, bind. rewrite sendRequest_run. cbn [fst snd]. split.
  - intros err HDo. rewrite HDo. reflexivity.
  - intros (resp & body & r & HDo & HRead & HJson & Hne).
    rewrite HDo, HRead, HJson. cbn [rq_id requestOf] in Hne.
    rewrite (proj2 (Z.eqb_neq _ _) Hne). reflexivity.
Qed.

End RecordLoop.

Lemma school_correlated {T : Type} (decode : Body -> error + Rpc T)
      (teachers : list Teacher) (rooms : list Room) (klassen : list Klasse)
      (periods : list Period) (w : World) (client : Client) (method : string)
      (params : gmap string Param) (listing : T) :
  (forall id session,
      decode (mkBody (inr (mkRpc "2.0" id session)) (inr (mkRpc "2.0" id teachers))
                     (inr (mkRpc "2.0" id rooms)) (inr (mkRpc "2.0" id klassen))
                     (inr (mkRpc "2.0" id periods)))
      = inr (mkRpc "2.0" id listing)) ->
  correlated decode (school teachers rooms klassen periods) w
             (requestOf (school teachers rooms klassen periods) w client method params)
             listing.
Proof.
  intros Hdec. unfold correlated, school, answer. cbn.
  eexists _, _, _. split; [reflexivity |]. cbn.
  split; [reflexivity |]. split; [apply Hdec |]. cbn.
  assert (Hid : 0 <= Z.of_nat (drawn w) mod 1000 < 1000) by (apply Z.mod_pos_bound; lia).
  rewrite Atoi_Itoa by lia. auto.
Qed.

Lemma school_answers (teachers : list Teacher) (rooms : list Room)
      (klassen : list Klasse) (periods : list Period) (client : Client) :
  answersListings (school teachers rooms klassen periods) client klassen teachers rooms.
Proof.
  intros w. split; [| split]; apply school_correlated; reflexivity.
Qed.

Lemma timetable_of_served_records_witness :
  exists w',
    GetTimetableOfTeacher (school smiths e12 fifthForm [mondayFirst]) jdoe monday friday
                          emptyWorld
    = (Return ([ {| Start := mkCivil 2024 3 11 8 0;
                    End_ := mkCivil 2024 3 11 8 50;
                    ClassIDs := [1]; Classes := ["5AHIF"];
                    TeacherIDs := [7]; Teachers := ["SMI"; "SMJ"];
                    RoomIDs := [3]; Rooms := ["E12"] |} ], None), w') /\
    length (wire w') = 4%nat.
Proof.
  destruct (@timetable_of_served_records civilLib
              (school smiths e12 fifthForm [mondayFirst]) jdoe monday friday emptyWorld
              fifthForm smiths e12 [mondayFirst])
    as (w' & Hrun & _ & Hlen).
  - reflexivity.
  - apply school_answers.
  - apply school_correlated. reflexivity.
  - constructor; [| constructor]. unfold readable. cbn. lia.
  - exists w'. split; [exact Hrun | exact Hlen].
Defined.

Lemma timetable_panics_on_unreadable_record_witness :
  exists w',
    GetTimetableOfTeacher (school smiths e12 fifthForm [mondayFirst; blankRecord])
                          jdoe monday friday emptyWorld
    = (Panic "slice bounds out of range", w') /\
    map rq_method (wire w') = ["getTimetable"; "getKlassen"; "getTeachers"; "getRooms"].
Proof.
  apply (@timetable_panics_on_unreadable_record civilLib
           (school smiths e12 fifthForm [mondayFirst; blankRecord]) jdoe monday friday
           emptyWorld fifthForm smiths e12 [mondayFirst] blankRecord []).
  - reflexivity.
  - apply school_answers.
  - apply school_correlated. reflexivity.
  - constructor; [| constructor]. unfold readable. cbn. lia.
  - left. cbn. lia.
Defined.

Lemma timetable_request_failures_witness :
  GetTimetableOfTeacher unreachable jdoe monday friday emptyWorld
  = (Return ([], Some "connection refused"),
     afterSend emptyWorld
               (requestOf unreachable emptyWorld jdoe "getTimetable"
                          (timetableParams 5 2 monday friday))).
Proof.
  destruct (@timetable_request_failures civilLib unreachable jdoe monday friday
              emptyWorld eq_refl) as (Herr & _).
  apply (Herr "connection refused"). reflexivity.
Defined.

(** ** TimetableRetrieval: the three variants *)

Section Variants.
Context `{GoLib} (env : Env).

Lemma lessonsOf_actingFor (client : Client) (id type : Z) (records : list Period) :
  forall lessons w,
    lessonsOf env (actingFor client id type) records lessons w
    = lessonsOf env client records lessons w.
Proof.
  induction records as [|l rest IH]; intros lessons w; [reflexivity |].
  cbn [lessonsOf].
  destruct (slice (strconv.Itoa (pe_Date l)) 0 4); [| reflexivity].
  destruct (slice (strconv.Itoa (pe_Date l)) 4 6); [| reflexivity].
  destruct (slice (strconv.Itoa (pe_Date l)) 6 8); [| reflexivity].
  destruct (clock (pe_StartTime l)) as [[sh sm]|]; [| reflexivity].
  destruct (clock (pe_EndTime l)) as [[eh em]|]; [| reflexivity].
  unfold bind.
  change (ResolveClasses env (actingFor client id type))
    with (ResolveClasses env client).
  change (ResolveTeachers env (actingFor client id type))
    with (ResolveTeachers env client).
  change (ResolveRooms env (actingFor client id type))
    with (ResolveRooms env client).
  destruct (ResolveClasses env client _ w) as [[[classes [e1|]]|msg] w1];
    cbn [snd fst]; try reflexivity.
  destruct (ResolveTeachers env client _ w1) as [[[teachers [e2|]]|msg] w2];
    cbn [snd fst]; try reflexivity.
  destruct (ResolveRooms env client _ w2) as [[[rooms [e3|]]|msg] w3];
    cbn [snd fst]; try reflexivity.
  apply IH.
Qed.

Lemma getTimetable_actingFor (client : Client) (id type : Z)
      (params : gmap string Param) (w : World) :
  getTimetable env (actingFor client id type) params w
  = getTimetable env client params w.
Proof.
  unfold getTimetable, bind. rewrite !sendRequest_run. cbn [fst snd].
  change (requestOf env w (actingFor client id type) "getTimetable" params)
    with (requestOf env w client "getTimetable" params).
  destruct (Do env (wire w) _) as [e|resp]; [reflexivity |].
  destruct (ReadAll resp) as [e|body]; [reflexivity |].
  destruct (asTimetable body) as [e|r]; [reflexivity |].
  destruct (_ =? _); [apply lessonsOf_actingFor | reflexivity].
Qed.

(** X22. The three retrievals are one.  Once the name is resolved,
    [GetTimetableOfClass] and [GetTimetableOfSpecificTeacher] do exactly what
    [GetTimetableOfTeacher] does for the same session with the person
    replaced by the resolved id, with type 1 for a class and 2 for a
    teacher.  By class name this holds whatever [ResolveClassID] returned
    with the id (its error is not looked at); by teacher name it holds when
    [ResolveTeacherID] returned no error. *)
Theorem retrieval_variants_agree (client : Client) (start end_ : Time)
        (name : string) (w w1 : World) (id : Z) :
  Authenticated client = true ->
  (forall err,
      ResolveClassID env client name w = (Return (id, err), w1) ->
      GetTimetableOfClass env client start end_ name w
      = GetTimetableOfTeacher env (actingFor client id 1) start end_ w1) /\
  (ResolveTeacherID env client name w = (Return (id, None), w1) ->
   GetTimetableOfSpecificTeacher env client start end_ name w
   = GetTimetableOfTeacher env (actingFor client id 2) start end_ w1).
Proof.
  intros Ha. split.
  - intros err Hres. unfold GetTimetableOfClass, GetTimetableOfTeacher.
    cbn [Authenticated actingFor PersonID PersonType]. rewrite Ha. cbn [negb].
    unfold bind. rewrite Hres. cbn [fst].
    symmetry. apply getTimetable_actingFor.
  - intros Hres. unfold GetTimetableOfSpecificTeacher, GetTimetableOfTeacher.
    cbn [Authenticated actingFor PersonID PersonType]. rewrite Ha. cbn [negb].
    unfold bind. rewrite Hres. cbn [fst snd].
    symmetry. apply getTimetable_actingFor.
Qed.

End Variants.

Lemma retrieval_variants_agree_witness :
  let env := school smiths e12 fifthForm [mondayFirst] in
  GetTimetableOfClass env jdoe monday friday "5AHIF" emptyWorld
  = GetTimetableOfTeacher env (actingFor jdoe 1 1) monday friday
                          (snd (ResolveClassID env jdoe "5AHIF" emptyWorld)) /\
  GetTimetableOfSpecificTeacher env jdoe monday friday "John SMITH" emptyWorld
  = GetTimetableOfTeacher env (actingFor jdoe 7 2) monday friday
                          (snd (ResolveTeacherID env jdoe "John SMITH" emptyWorld)).
Proof.
  intros env. split.
  - destruct (@retrieval_variants_agree civilLib env jdoe monday friday "5AHIF"
                emptyWorld (snd (ResolveClassID env jdoe "5AHIF" emptyWorld)) 1 eq_refl)
      as (Hclass & _).
    apply (Hclass None). vm_compute. reflexivity.
  - destruct (@retrieval_variants_agree civilLib env jdoe monday friday "John SMITH"
                emptyWorld (snd (ResolveTeacherID env jdoe "John SMITH" emptyWorld)) 7
                eq_refl) as (_ & Hteacher).
    apply Hteacher. vm_compute. reflexivity.
Defined.

(** ** PeriodMapper: shape of the tables *)

Ltac table_cases :=
  repeat match goal with
         | |- context [ Z.eqb ?a ?b ] => destruct (Z.eqb_spec a b)
         | H : context [ Z.eqb ?a ?b ] |- _ => destruct (Z.eqb_spec a b)
         end.

(** X23. Both period functions return -1 or a period from 1 to 15, and
    among the times they map they keep the order of the clock: a later start
    never gets a smaller period number than an earlier one, and likewise for
    ends. *)
Theorem periods_bounded_and_ordered `{GoLib} (t1 t2 : Time) :
  (GetLessonNrByStart t1 = -1 \/ 1 <= GetLessonNrByStart t1 <= 15) /\
  (GetLessonNrByEnd t1 = -1 \/ 1 <= GetLessonNrByEnd t1 <= 15) /\
  (Hour t1 < Hour t2 \/ (Hour t1 = Hour t2 /\ Minute t1 <= Minute t2) ->
   (GetLessonNrByStart t1 <> -1 -> GetLessonNrByStart t2 <> -1 ->
    GetLessonNrByStart t1 <= GetLessonNrByStart t2) /\
   (GetLessonNrByEnd t1 <> -1 -> GetLessonNrByEnd t2 <> -1 ->
    GetLessonNrByEnd t1 <= GetLessonNrByEnd t2)).
Proof.
  unfold GetLessonNrByStart, GetLessonNrByEnd.
  generalize (Hour t1) (Minute t1) (Hour t2) (Minute t2). intros h1 m1 h2 m2.
  split; [| split].
  - table_cases; lia.
  - table_cases; lia.
  - intros Horder. split; intros Hm1 Hm2; table_cases; lia.
Qed.

Lemma periods_bounded_and_ordered_witness :
  GetLessonNrByStart (mkCivil 2024 3 11 8 50) <= GetLessonNrByStart (mkCivil 2024 3 11 17 0).
Proof.
  destruct (@periods_bounded_and_ordered civilLib (mkCivil 2024 3 11 8 50)
              (mkCivil 2024 3 11 17 0)) as (_ & _ & Hord).
  destruct Hord as (Hstart & _); [left; cbn; lia |].
  apply Hstart; cbn; discriminate.
Defined.
